(** * Shepherd: the domain review engine of [modules/review.py]

    A shallow embedding of the class [DomainReview]: the category adapters,
    the CAPTCHA helper, and the decision loop [check_domain_status], followed
    by the properties of the reputation aggregation that the code has and the
    inputs on which it leaves its documented behaviour.

    Conventions of the embedding.
    - Python [str] values are [string]s of 8-bit characters. [PyStr.lower]
      and [PyStr.capitalize] are the methods of [str] on ASCII text; what
      [str.lower] makes of a text with other characters is not computed but
      asked of the world ([str_lower]).
    - What the network, the browser, the OCR engine and the file system answer
      is data of the model (the record [World]); every adapter is the
      source's case analysis over that answer.
    - A call either returns a value or raises, and leaves the list of the
      external calls it made: the type [M].
    - [list(set(l))] is a duplicate-free list with the members of [l]; CPython
      fixes its order by hashing, the model by [remove_dups], and no statement
      below depends on that order. *)

From Stdlib Require Import Ascii String ZArith Lia.
From stdpp Require Import gmap strings list.

Open Scope string_scope.
Open Scope list_scope.

(** ** Python strings *)

Module PyStr.

Definition is_upper (c : ascii) : bool :=
  let n := nat_of_ascii c in (65 <=? n)%nat && (n <=? 90)%nat.

Definition is_lower (c : ascii) : bool :=
  let n := nat_of_ascii c in (97 <=? n)%nat && (n <=? 122)%nat.

Definition lower_char (c : ascii) : ascii :=
  if is_upper c then ascii_of_nat (nat_of_ascii c + 32) else c.

Definition upper_char (c : ascii) : ascii :=
  if is_lower c then ascii_of_nat (nat_of_ascii c - 32) else c.

(** [s.lower()] *)
Fixpoint lower (s : string) : string :=
  match s with
  | EmptyString => EmptyString
  | String c s' => String (lower_char c) (lower s')
  end.

(** [s.upper()] *)
Fixpoint upper (s : string) : string :=
  match s with
  | EmptyString => EmptyString
  | String c s' => String (upper_char c) (upper s')
  end.

(** [s.capitalize()]: first character upper case, the rest lower case. *)
Definition capitalize (s : string) : string :=
  match s with
  | EmptyString => EmptyString
  | String c s' => String (upper_char c) (lower s')
  end.

(** [sub in s] for two strings: [sub] occurs in [s] as a contiguous run. *)
Fixpoint contains (s sub : string) : bool :=
  String.prefix sub s ||
  match s with
  | EmptyString => false
  | String _ s' => contains s' sub
  end.

(** [sep.join(l)] *)
Definition join (sep : string) (l : list string) : string :=
  String.concat sep l.

(** Iterating a [str] yields its characters as one-character strings. *)
Fixpoint chars (s : string) : list string :=
  match s with
  | EmptyString => []
  | String c s' => String c EmptyString :: chars s'
  end.

(** [s.split(' ')[0]]: the characters before the first space. *)
Fixpoint before_space (s : string) : string :=
  match s with
  | EmptyString => EmptyString
  | String c s' =>
      if Ascii.eqb c " "%char then EmptyString else String c (before_space s')
  end.

(** [s.split('\n')]: the lines of a text; a text always has at least one. *)
Fixpoint lines_from (cur : string) (s : string) : list string :=
  match s with
  | EmptyString => [cur]
  | String c s' =>
      if Ascii.eqb c "010"%char
      then cur :: lines_from EmptyString s'
      else lines_from (cur +:+ String c EmptyString) s'
  end.

Definition lines (s : string) : list string := lines_from EmptyString s.

(** The text has ASCII characters only. *)
Fixpoint is_ascii (s : string) : bool :=
  match s with
  | EmptyString => true
  | String c s' => (nat_of_ascii c <? 128)%nat && is_ascii s'
  end.

(** Truth value of a [str]. *)
Definition truthy (s : string) : bool :=
  match s with EmptyString => false | _ => true end.

(** [list(set(l))] *)
Definition list_set (l : list string) : list string := remove_dups l.

(** A value that is a list of strings on some paths and one string on
    others; [extend] and [join] iterate it either way. *)
Inductive seq := AsList (l : list string) | AsStr (s : string).

Definition items (x : seq) : list string :=
  match x with AsList l => l | AsStr s => chars s end.

End PyStr.

(** ** The category denylist *)

Definition blacklisted : list string :=
  ["phishing"; "web ads/analytics"; "suspicious"; "shopping"; "placeholders";
   "pornography"; "spam"; "gambling"; "scam/questionable/illegal";
   "malicious sources/malnets"].

(** The test of line 531, [category.lower() in self.blacklisted]. *)
Definition is_blacklisted (category : string) : bool :=
  bool_decide (PyStr.lower category ∈ blacklisted).

(** The loop of lines 529-532 with its accumulator. *)
Fixpoint bad_categories_loop (domain_categories bad_categories : list string)
  : list string :=
  match domain_categories with
  | [] => bad_categories
  | category :: rest =>
      if is_blacklisted category
      then bad_categories_loop rest (bad_categories ++ [PyStr.capitalize category])
      else bad_categories_loop rest bad_categories
  end.

Definition bad_categories_of (domain_categories : list string) : list string :=
  bad_categories_loop domain_categories [].

(** ** Calls that return or raise, and the external calls they leave behind *)

Inductive exn :=
| TypeError   (** an operation applied to a value of the wrong type *)
| NameError   (** a name that is bound nowhere *)
| AttributeError  (** a method looked up on a value that has none of the
                      name *)
| Fault.      (** raised by a collaborator: requests, urllib, selenium, the
                  file system, a parser *)

Inductive outcome (A : Type) :=
| Ok (a : A)
| Raise (e : exn).
Arguments Ok {A} a.
Arguments Raise {A} e.

Inductive source :=
| MalwareDomains | VirusTotal | Cymon | XForce | Talos | Bluecoat
| Fortiguard | OpenDNS | TrendMicro | MXToolbox | Websense.

Inductive event :=
| Query (s : source) (target : string)   (** one lookup sent to a source *)
| Sleep (secs : Z).                      (** a completed [time.sleep] *)

#[global] Instance source_eq_dec : EqDecision source.
Proof. solve_decision. Defined.

#[global] Instance event_eq_dec : EqDecision event.
Proof. solve_decision. Defined.

Definition M (A : Type) : Type := outcome A * list event.

Definition ret {A} (a : A) : M A := (Ok a, []).
Definition raise {A} (e : exn) : M A := (Raise e, []).
Definition emit (e : event) : M unit := (Ok tt, [e]).

(** A step without external calls. *)
Definition lift {A} (o : outcome A) : M A := (o, []).

Definition bind {A B} (m : M A) (k : A -> M B) : M B :=
  match m with
  | (Ok a, t) => let '(r, t') := k a in (r, t ++ t')
  | (Raise e, t) => (Raise e, t)
  end.

Notation "'do' x <- c ; k" := (bind c (fun x => k))
  (at level 10, x name, c at level 100, k at level 200).
Notation "'run' c ; k" := (bind c (fun _ => k))
  (at level 10, c at level 100, k at level 200).

Definition result {A} (m : M A) : outcome A := fst m.
Definition trace {A} (m : M A) : list event := snd m.

(** ** Data of the review *)

(** A row of the [Domain] model. The review reads [name] and
    [health_status]; [ident] is the identity by which a model instance is a
    dictionary key. *)
Record Domain := {
  ident : N;
  name : string;
  health_status : string
}.

(** A value of [settings.DOMAINCHECK_CONFIG]. *)
Inductive setting := SInt (n : Z) | SStr (s : string).

Definition setting_truthy (v : setting) : bool :=
  match v with
  | SInt n => negb (n =? 0)%Z
  | SStr s => PyStr.truthy s
  end.

(** The fields of the VirusTotal domain report that the review reads; a field
    of the report is [None] when the key is absent from the JSON object.
    [last_resolved] is [None] for a JSON [null]. The value under
    ['categories'] is a list of names or a mapping from provider to name. *)
Record resolution := {
  ip_address : string;
  last_resolved : option string
}.

Inductive categories_value :=
| CategoryList (names : list string)
| CategoryMapping (by_provider : list (string * string)).

Record vt_report := {
  vt_categories : option categories_value;
  detected_downloaded_samples : option (list string);
  detected_urls : option (list string);
  resolutions : option (list resolution)
}.

(** *** What the collaborators answer

    In every type below the constructor [..Fault] stands for an exception
    raised while the request is made or its body is decoded. *)

Inductive feed_response :=
| FeedFault
| FeedStatus (status_code : Z) (text : string).

Inductive talos_response :=
| TalosFault
| TalosNotOk (status_code : Z)
| TalosOk (category_description : option string).

(** [cats]: the keys of [response['result']['cats']], or [None] when the
    body of the answer does not decode to that shape. *)
Inductive xforce_response :=
| XfFault
| XfResponse (status_code : Z) (cats : option (list string)).

Inductive fortiguard_response :=
| FgFault
| FgNotOk (status_code : Z)
| FgOk (matches : list string).     (** [re.findall] over the page *)

Inductive bluecoat_response :=
| BcFault                           (** the browser session fails before
                                        the first settle delay *)
| BcFaultAfterFirstClick            (** the second click fails *)
| BcNoCategory                      (** no element of the class on the
                                        result page *)
| BcText (clickable_category : string).

Inductive opendns_response :=
| OdFault
| OdPage (tags : option (list string)).  (** [tags.text.strip().split(', ')] *)

Inductive trendmicro_response :=
| TmFault
| TmCaptcha
| TmPage (tags : option (list string)).

Inductive mxtoolbox_response :=
| MxFault
| MxPage (noIssuesFound googleSafeBrowsingIssuesFound phishTankIssuesFound : bool).

Inductive cymon_response :=
| CyFault
| CyStatus (status_code : Z) (ip_not_found : bool).

(** A stored Websense report, when [dict.json] has one for the key. *)
Inductive websense_report :=
| WsReportFault                     (** the report URL cannot be fetched *)
| WsReportPage (classAction : list string).

Inductive websense_quota :=
| WsQuotaFault                      (** the quota page cannot be read *)
| WsQuota (num_remaining : Z).

Record websense_response := {
  ws_history_readable : bool;
  ws_stored_report : option websense_report;
  ws_quota : websense_quota
}.

Record World := {
  malwaredomains : feed_response;
  virustotal : string -> option vt_report;
  cymon : string -> cymon_response;
  xforce : string -> xforce_response;
  talos : string -> talos_response;
  bluecoat : string -> bluecoat_response;
  fortiguard : string -> fortiguard_response;
  opendns : string -> opendns_response;
  trendmicro : string -> trendmicro_response;
  mxtoolbox : string -> mxtoolbox_response;
  websense : Domain -> websense_response;
  unicode_lower : string -> string
}.

(** [s.lower()]: computed for ASCII text, and for any other text what the
    interpreter's Unicode tables give ([unicode_lower]). *)
Definition str_lower (w : World) (s : string) : string :=
  if PyStr.is_ascii s then PyStr.lower s else unicode_lower w s.

(** [Response.ok] of requests: the status is no client or server error. *)
Definition response_ok (status_code : Z) : bool :=
  negb ((400 <=? status_code)%Z && (status_code <? 600)%Z).

(** ** The object *)

Record DomainReview := {
  domain_queryset : list Domain;
  request_delay : setting;
  virustotal_api_key : setting
}.

(** [__init__]: [settings] is [DOMAINCHECK_CONFIG], or [None] when the
    settings module has none. Without an API key the constructor ends the
    process ([exit()]): there is no object. *)
Definition init (settings : option (gmap string setting))
    (domain_queryset : list Domain) : option DomainReview :=
  let request_delay :=
    match settings with
    | Some config => default (SInt 20) (config !! "sleep_time")
    | None => SInt 20
    end in
  match settings with
  | Some config =>
      match config !! "virustotal_api_key" with
      | Some key =>
          Some {| domain_queryset := domain_queryset;
                  request_delay := request_delay;
                  virustotal_api_key := key |}
      | None => None
      end
  | None => None
  end.

(** [time.sleep(secs)], as [check_bluecoat] calls it. *)
Definition time_sleep (secs : Z) : M unit := emit (Sleep secs).

(** The bare name [sleep] of line 553. The module binds [time] ([import
    time]) and nothing called [sleep], so evaluating the name raises before
    any argument is passed and before any delay. *)
Definition sleep (secs : setting) : M unit := raise NameError.

(** ** The source adapters *)

(** [check_virustotal] (lines 81-100): [None] when the key is falsy, when the
    request raises, or when the body is not JSON. *)
Definition check_virustotal (self : DomainReview) (w : World) (domain : string)
  : M (option vt_report) :=
  if setting_truthy (virustotal_api_key self) then
    let domain := str_lower w domain in
    run emit (Query VirusTotal domain);
    ret (virustotal w domain)
  else ret None.

(** [check_talos] (lines 102-122). *)
Definition check_talos (w : World) (domain : string) : M (list string) :=
  run emit (Query Talos domain);
  match talos w domain with
  | TalosOk (Some description) => ret [description]
  | TalosOk None => ret ["Uncategorized"]
  | TalosNotOk _ => ret []
  | TalosFault => ret []
  end.

(** [check_ibm_xforce] (lines 124-153). The handler of line 151 is a bare
    [except:] whose body formats the name [error], which nothing binds: the
    handler itself raises, for a failed request as for a body that does not
    decode. *)
Definition check_ibm_xforce (w : World) (domain : string) : M (list string) :=
  run emit (Query XForce domain);
  match xforce w domain with
  | XfFault => raise NameError
  | XfResponse status_code cats =>
      if response_ok status_code then
        match cats with
        | None => raise NameError
        | Some [] => ret ["Uncategorized"]
        | Some categories => ret categories
        end
      else if (status_code =? 404)%Z then ret ["Unknown"]
      else ret []
  end.

(** [check_fortiguard] (lines 155-180); [cat[0]] on an empty match list
    raises inside the [try] and is caught. *)
Definition check_fortiguard (w : World) (domain : string) : M (list string) :=
  run emit (Query Fortiguard domain);
  match fortiguard w domain with
  | FgOk (cat0 :: _) => ret [cat0]
  | FgOk [] => ret []
  | FgNotOk _ => ret []
  | FgFault => ret []
  end.

(** [check_bluecoat] (lines 182-206): no handler around the browser session,
    and the value returned is the element's text, a [str]. *)
Definition check_bluecoat (w : World) (domain : string) : M string :=
  run emit (Query Bluecoat domain);
  match bluecoat w domain with
  | BcFault => raise Fault
  | BcFaultAfterFirstClick =>
      run time_sleep 2;
      raise Fault
  | BcNoCategory =>
      run time_sleep 2;
      run time_sleep 5;
      raise Fault
  | BcText categories =>
      run time_sleep 2;
      run time_sleep 5;
      ret categories
  end.

(** [check_mxtoolbox] (lines 236-281). *)
Definition check_mxtoolbox (w : World) (domain : string) : M (list string) :=
  run emit (Query MXToolbox domain);
  match mxtoolbox w domain with
  | MxFault => ret []
  | MxPage true _ _ => ret ["No issues found"]
  | MxPage false google phishtank =>
      ret ((if google then ["Google SafeBrowsing Issues Found."] else []) ++
           (if phishtank then ["PhishTank Issues Found"] else []))
  end.

(** [check_cymon] (lines 283-299). *)
Definition check_cymon (w : World) (target : string) : M bool :=
  run emit (Query Cymon target);
  match cymon w target with
  | CyFault => ret false
  | CyStatus status_code ip_not_found =>
      if (status_code =? 200)%Z
      then (if ip_not_found then ret false else ret true)
      else ret false
  end.

(** [check_opendns] (lines 301-316). *)
Definition check_opendns (w : World) (domain : string) : M (list string) :=
  run emit (Query OpenDNS domain);
  match opendns w domain with
  | OdFault => ret []
  | OdPage (Some categories) => ret categories
  | OdPage None => ret ["No Tags"]
  end.

(** [check_trendmicro] (lines 384-432). *)
Definition check_trendmicro (w : World) (domain : string) : M (list string) :=
  run emit (Query TrendMicro domain);
  match trendmicro w domain with
  | TmFault => ret []
  | TmCaptcha => ret []
  | TmPage (Some categories) => ret categories
  | TmPage None => ret ["Uncategorized"]
  end.

(** [check_websense] (lines 318-381), called with the model instance.
    [dict.json] is opened outside every [try]. With a stored report the
    category is cell 4 of the report page, a [str]. Without one,
    [Request(None)] raises inside the first [try]; the quota page is then
    read outside every [try], and with quota left line 358 adds the instance
    to a [str]. *)
Definition check_websense (w : World) (domain : Domain) : M PyStr.seq :=
  let answer := websense w domain in
  if ws_history_readable answer then
    run emit (Query Websense (name domain));
    match ws_stored_report answer with
    | Some WsReportFault => ret (PyStr.AsList [])
    | Some (WsReportPage location) =>
        match location !! 4%nat with
        | Some categories => ret (PyStr.AsStr categories)
        | None => ret (PyStr.AsList [])
        end
    | None =>
        match ws_quota answer with
        | WsQuotaFault => raise Fault
        | WsQuota num_remaining =>
            if (0 <? num_remaining)%Z then raise TypeError
            else ret (PyStr.AsList [])
        end
    end
  else raise Fault.

(** [download_malware_domains] (lines 434-443): the feed's text, not its
    lines; the request is made outside every [try]. *)
Definition download_malware_domains (w : World) : M (option string) :=
  run emit (Query MalwareDomains "http://mirror1.malwaredomains.com/files/justdomains");
  match malwaredomains w with
  | FeedFault => raise Fault
  | FeedStatus status_code malware_domains =>
      if (status_code =? 200)%Z then ret (Some malware_domains) else ret None
  end.

(** ** The CAPTCHA helper *)

Module Captcha.

Inductive download :=
| DownloadFault
| DownloadStatus (status_code : Z) (copied : bool).
    (** [copied]: [shutil.copyfileobj] completes *)

Inductive ocr :=
| OcrFault                      (** [Image.open] or tesseract raises *)
| OcrText (text : string).

Record world := {
  image : download;
  opens : bool;                 (** [open(jpeg, 'wb')] does not raise *)
  image_to_string : ocr;
  removable : bool              (** [os.remove] does not raise [OSError] *)
}.

Definition jpeg : string := "captcha.jpg".

(** [text.replace(" ", "").replace("[", "l").replace("'", "")] *)
Fixpoint clean (text : string) : string :=
  match text with
  | EmptyString => EmptyString
  | String c rest =>
      if Ascii.eqb c " "%char then clean rest
      else if Ascii.eqb c "["%char then String "l"%char (clean rest)
      else if Ascii.eqb c "'"%char then clean rest
      else String c (clean rest)
  end.

(** [solve_captcha] (lines 208-234) over the set of files in the working
    directory; [None] is the value [False]. The image file exists from the
    moment [open] returns. *)
Definition solve_captcha (w : world) (files : gset string)
  : option string * gset string :=
  match image w with
  | DownloadFault => (None, files)
  | DownloadStatus status_code copied =>
      if (status_code =? 200)%Z then
        if opens w then
          let files := {[jpeg]} ∪ files in
          if copied then
            match image_to_string w with
            | OcrFault => (None, files)
            | OcrText text =>
                let text := clean text in
                let files := if removable w then files ∖ {[jpeg]} else files in
                (Some text, files)
            end
          else (None, files)
        else (None, files)
      else (None, files)
  end.

End Captcha.

(** ** The burn decision for one domain *)

(** The two locals every rule updates. *)
Record verdict := {
  burned : bool;
  burned_explanations : list string
}.

(** [burned = True] followed by [burned_explanations.append(why)]. *)
Definition flag (why : string) (v : verdict) : verdict :=
  {| burned := true; burned_explanations := burned_explanations v ++ [why] |}.

(** Lines 474-478: [malware_domains] is the text of the feed (or [None]) and
    [in] is the substring test of [str]. *)
Definition rule_malware (malware_domains : option string) (domain_name : string)
    (v : verdict) : verdict :=
  match malware_domains with
  | Some feed =>
      if PyStr.truthy feed then
        if PyStr.contains feed domain_name
        then flag "Flagged by malwaredomains.com" v
        else v
      else v
  | None => v
  end.

(** [key in vt_results and len(vt_results[key]) > 0] *)
Definition detected (field : option (list string)) : bool :=
  match field with
  | Some (_ :: _) => true
  | _ => false
  end.

(** Lines 484-488. *)
Definition rule_samples (vt_results : vt_report) (v : verdict) : verdict :=
  if detected (detected_downloaded_samples vt_results)
  then flag "Tied to a VirusTotal detected malware sample" v
  else v.

(** Lines 489-493. *)
Definition rule_urls (vt_results : vt_report) (v : verdict) : verdict :=
  if detected (detected_urls vt_results)
  then flag "Tied to a VirusTotal detected URL" v
  else v.

(** Lines 533-535. *)
Definition rule_categories (bad_categories : list string) (v : verdict) : verdict :=
  match bad_categories with
  | [] => v
  | _ :: _ => flag "Tagged with a bad category" v
  end.

(** An entry of [ip_addresses] (line 498). *)
Record ip_entry := {
  address : string;
  timestamp : string
}.

(** The loop of lines 497-498: [split] is looked up on every
    [last_resolved], and a [null] has none. *)
Fixpoint ip_entries (rs : list resolution) : outcome (list ip_entry) :=
  match rs with
  | [] => Ok []
  | r :: rest =>
      match last_resolved r with
      | None => Raise AttributeError
      | Some seen =>
          match ip_entries rest with
          | Ok entries =>
              Ok ({| address := ip_address r;
                     timestamp := PyStr.before_space seen |} :: entries)
          | Raise e => Raise e
          end
      end
  end.

Definition passive_dns (vt_results : vt_report) : outcome (list ip_entry) :=
  match resolutions vt_results with
  | Some rs => ip_entries rs
  | None => Ok []
  end.

(** The loop of lines 500-503 with its two accumulators. *)
Fixpoint cymon_loop (w : World) (ip_addresses : list ip_entry)
    (burned_dns : bool) (bad_addresses : list string) : M (bool * list string) :=
  match ip_addresses with
  | [] => ret (burned_dns, bad_addresses)
  | a :: rest =>
      do suspect <- check_cymon w (address a);
      if suspect
      then cymon_loop w rest true
             (bad_addresses ++ [address a +:+ "/" +:+ timestamp a])
      else cymon_loop w rest burned_dns bad_addresses
  end.

(** Lines 504-508. *)
Definition health_dns_of (burned_dns : bool) (bad_addresses : list string) : string :=
  if burned_dns
  then "Flagged DNS (" +:+ PyStr.join ", " bad_addresses +:+ ")"
  else "Healthy".

(** The locals of one iteration when line 536 is reached. *)
Record evaluation := {
  ev_verdict : verdict;
  ev_health_dns : string;
  ev_domain_categories : list string;
  ev_bad_categories : list string;
  ev_xforce_results : list string;
  ev_talos_results : list string;
  ev_bluecoat_results : string;
  ev_fortiguard_results : list string;
  ev_opendns_results : list string;
  ev_trendmicro_results : list string;
  ev_mxtoolbox_results : list string;
  ev_websense_results : PyStr.seq
}.

(** Lines 509-527: the category list, grown by [extend] in source order and
    made unique. Line 523 extends the list with itself; [mxtoolbox_results]
    is not an operand. [bluecoat_results] and, on one path,
    [websense_results] are strings, which [extend] takes character by
    character. *)
Definition aggregate (vt_categories xforce_results talos_results : list string)
    (bluecoat_results : string)
    (fortiguard_results opendns_results trendmicro_results : list string)
    (websense_results : PyStr.seq) : list string :=
  let domain_categories := vt_categories in
  let domain_categories := domain_categories ++ xforce_results in
  let domain_categories := domain_categories ++ talos_results in
  let domain_categories := domain_categories ++ PyStr.chars bluecoat_results in
  let domain_categories := domain_categories ++ fortiguard_results in
  let domain_categories := domain_categories ++ opendns_results in
  let domain_categories := domain_categories ++ trendmicro_results in
  let domain_categories := domain_categories ++ domain_categories in
  let domain_categories := domain_categories ++ PyStr.items websense_results in
  PyStr.list_set domain_categories.

(** Lines 472-535 for one domain, entered with the flag [burned] that line
    468 has just set. Testing [key in vt_results] on [None] (line 481)
    raises, and so does [extend] on a mapping (line 511). *)
Definition evaluate_domain (self : DomainReview) (w : World)
    (malware_domains : option string) (domain : Domain) (burned : bool)
  : M evaluation :=
  let domain_name := name domain in
  let v := {| burned := burned; burned_explanations := [] |} in
  let v := rule_malware malware_domains domain_name v in
  do vt_results <- check_virustotal self w domain_name;
  match vt_results with
  | None => raise TypeError
  | Some vt_results =>
      let domain_categories :=
        match vt_categories vt_results with
        | Some categories => categories
        | None => CategoryList []
        end in
      let v := rule_samples vt_results v in
      let v := rule_urls vt_results v in
      do ip_addresses <- lift (passive_dns vt_results);
      do dns <- cymon_loop w ip_addresses false [];
      let health_dns := health_dns_of (fst dns) (snd dns) in
      do xforce_results <- check_ibm_xforce w domain_name;
      match domain_categories with
      | CategoryMapping _ => raise AttributeError
      | CategoryList vt_categories =>
      do talos_results <- check_talos w domain_name;
      do bluecoat_results <- check_bluecoat w domain_name;
      do fortiguard_results <- check_fortiguard w domain_name;
      do opendns_results <- check_opendns w domain_name;
      do trendmicro_results <- check_trendmicro w domain_name;
      do mxtoolbox_results <- check_mxtoolbox w domain_name;
      do websense_results <- check_websense w domain;
      let domain_categories :=
        aggregate vt_categories xforce_results talos_results bluecoat_results
          fortiguard_results opendns_results trendmicro_results
          websense_results in
      let bad_categories := bad_categories_of domain_categories in
      let v := rule_categories bad_categories v in
      ret {| ev_verdict := v;
             ev_health_dns := health_dns;
             ev_domain_categories := domain_categories;
             ev_bad_categories := bad_categories;
             ev_xforce_results := xforce_results;
             ev_talos_results := talos_results;
             ev_bluecoat_results := bluecoat_results;
             ev_fortiguard_results := fortiguard_results;
             ev_opendns_results := opendns_results;
             ev_trendmicro_results := trendmicro_results;
             ev_mxtoolbox_results := mxtoolbox_results;
             ev_websense_results := websense_results |}
      end
  end.

(** ** The report and the pass *)

(** [lab_results[domain]['categories']]; the key ['all'] receives the bad
    categories and the key ['bad'] all of them (lines 542-543). *)
Record category_breakdown := {
  cat_all : string;
  cat_bad : string;
  cat_talos : string;
  cat_xforce : string;
  cat_opendns : string;
  cat_bluecoat : string;
  cat_mxtoolbox : string;
  cat_fortiguard : string;
  cat_trendmicro : string;
  cat_websense : string
}.

(** [lab_results[domain]] *)
Record report := {
  rep_categories : category_breakdown;
  rep_burned : bool;
  rep_burned_explanation : string;
  rep_health_dns : string
}.

(** Lines 537-551. *)
Definition assemble (ev : evaluation) : report :=
  {| rep_categories :=
       {| cat_all := PyStr.join ", " (ev_bad_categories ev);
          cat_bad := PyStr.join ", " (ev_domain_categories ev);
          cat_talos := PyStr.join ", " (ev_talos_results ev);
          cat_xforce := PyStr.join ", " (ev_xforce_results ev);
          cat_opendns := PyStr.join ", " (ev_opendns_results ev);
          cat_bluecoat := PyStr.join ", " (PyStr.chars (ev_bluecoat_results ev));
          cat_mxtoolbox := PyStr.join ", " (ev_mxtoolbox_results ev);
          cat_fortiguard := PyStr.join ", " (ev_fortiguard_results ev);
          cat_trendmicro := PyStr.join ", " (ev_trendmicro_results ev);
          cat_websense := PyStr.join ", " (PyStr.items (ev_websense_results ev)) |};
     rep_burned := burned (ev_verdict ev);
     rep_burned_explanation := PyStr.join ", " (burned_explanations (ev_verdict ev));
     rep_health_dns := ev_health_dns ev |}.

(** One turn of the loop of line 457, lines 458-553. *)
Definition review_domain (self : DomainReview) (w : World)
    (malware_domains : option string) (lab_results : gmap N report)
    (domain : Domain) : M (gmap N report) :=
  let health := health_status domain in
  let burned := if bool_decide (health <> "Healthy") then false else true in
  if negb burned then
    do ev <- evaluate_domain self w malware_domains domain burned;
    let lab_results := <[ident domain := assemble ev]> lab_results in
    run sleep (request_delay self);
    ret lab_results
  else ret lab_results.

Fixpoint review_loop (self : DomainReview) (w : World)
    (malware_domains : option string) (queryset : list Domain)
    (lab_results : gmap N report) : M (gmap N report) :=
  match queryset with
  | [] => ret lab_results
  | domain :: rest =>
      do lab_results <- review_domain self w malware_domains lab_results domain;
      review_loop self w malware_domains rest lab_results
  end.

(** [check_domain_status] (lines 445-554). *)
Definition check_domain_status (self : DomainReview) (w : World)
  : M (gmap N report) :=
  do malware_domains <- download_malware_domains w;
  review_loop self w malware_domains (domain_queryset self) ∅.

(** ** Worlds and domains used in the examples *)

(** [w] with another answer from Cymon and everything else unchanged. *)
Definition with_cymon (w : World) (answers : string -> cymon_response) : World :=
  {| malwaredomains := malwaredomains w;
     virustotal := virustotal w;
     cymon := answers;
     xforce := xforce w;
     talos := talos w;
     bluecoat := bluecoat w;
     fortiguard := fortiguard w;
     opendns := opendns w;
     trendmicro := trendmicro w;
     mxtoolbox := mxtoolbox w;
     websense := websense w;
     unicode_lower := unicode_lower w |}.

#[global] Instance cymon_response_eq_dec : EqDecision cymon_response.
Proof. solve_decision. Defined.

(** Cymon knows the address: its page is served with status 200 and does
    not read 'IP Not Found'. *)
Definition cymon_knows (w : World) (ip : string) : bool :=
  match cymon w ip with
  | CyStatus status_code ip_not_found =>
      (status_code =? 200)%Z && negb ip_not_found
  | CyFault => false
  end.

Definition suspect (w : World) (r : resolution) : bool :=
  cymon_knows w (ip_address r).

(** The text under [last_resolved]. *)
Definition seen (r : resolution) : string :=
  default EmptyString (last_resolved r).

(** The entry of [ip_addresses] made from one resolution (line 498), and the
    text that line 503 appends for it. *)
Definition as_ip_entry (r : resolution) : ip_entry :=
  {| address := ip_address r;
     timestamp := PyStr.before_space (seen r) |}.

Definition dns_entry (r : resolution) : string :=
  ip_address r +:+ "/" +:+ PyStr.before_space (seen r).

(** The verdict the four rules leave, from the flag [b] of line 468. *)
Definition verdict_of (feed : option string) (domain_name : string)
    (vt : vt_report) (bad : list string) (b : bool) : verdict :=
  rule_categories bad
    (rule_urls vt
       (rule_samples vt
          (rule_malware feed domain_name
             {| burned := b; burned_explanations := [] |}))).

(** The names under ['categories'] when they can be extended as a list:
    none without the key, and [None] for a mapping. *)
Definition category_list (vt : vt_report) : option (list string) :=
  match vt_categories vt with
  | None => Some []
  | Some (CategoryList names) => Some names
  | Some (CategoryMapping _) => None
  end.

(** What line 503 appends for an entry of [ip_addresses]. *)
Definition entry_text (a : ip_entry) : string :=
  address a +:+ "/" +:+ timestamp a.

(** A VirusTotal answer with none of the four keys. *)
Definition vt_empty : vt_report :=
  {| vt_categories := None;
     detected_downloaded_samples := None;
     detected_urls := None;
     resolutions := None |}.

(** No Websense report on file and no quota left: the one way
    [check_websense] returns when it is handed a model instance. *)
Definition websense_no_quota : websense_response :=
  {| ws_history_readable := true;
     ws_stored_report := None;
     ws_quota := WsQuota 0 |}.

Definition newline : string := String "010"%char EmptyString.

(** A feed of two lines. *)
Definition sample_feed : string :=
  "example.com" +:+ newline +:+ "bad.org" +:+ newline.

(** Every source answers, and none has anything against any domain. *)
Definition quiet_world : World :=
  {| malwaredomains := FeedStatus 200 sample_feed;
     virustotal := fun _ => Some vt_empty;
     cymon := fun _ => CyStatus 200 true;
     xforce := fun _ => XfResponse 404 None;
     talos := fun _ => TalosOk None;
     bluecoat := fun _ => BcText "News";
     fortiguard := fun _ => FgOk ["Education"];
     opendns := fun _ => OdPage None;
     trendmicro := fun _ => TmPage None;
     mxtoolbox := fun _ => MxPage true false false;
     websense := fun _ => websense_no_quota;
     unicode_lower := fun s => s |}.

Definition with_virustotal (w : World) (answers : string -> option vt_report) : World :=
  {| malwaredomains := malwaredomains w;
     virustotal := answers;
     cymon := cymon w;
     xforce := xforce w;
     talos := talos w;
     bluecoat := bluecoat w;
     fortiguard := fortiguard w;
     opendns := opendns w;
     trendmicro := trendmicro w;
     mxtoolbox := mxtoolbox w;
     websense := websense w;
     unicode_lower := unicode_lower w |}.

Definition with_xforce (w : World) (answers : string -> xforce_response) : World :=
  {| malwaredomains := malwaredomains w;
     virustotal := virustotal w;
     cymon := cymon w;
     xforce := answers;
     talos := talos w;
     bluecoat := bluecoat w;
     fortiguard := fortiguard w;
     opendns := opendns w;
     trendmicro := trendmicro w;
     mxtoolbox := mxtoolbox w;
     websense := websense w;
     unicode_lower := unicode_lower w |}.

Definition with_bluecoat (w : World) (answers : string -> bluecoat_response) : World :=
  {| malwaredomains := malwaredomains w;
     virustotal := virustotal w;
     cymon := cymon w;
     xforce := xforce w;
     talos := talos w;
     bluecoat := answers;
     fortiguard := fortiguard w;
     opendns := opendns w;
     trendmicro := trendmicro w;
     mxtoolbox := mxtoolbox w;
     websense := websense w;
     unicode_lower := unicode_lower w |}.

Definition with_mxtoolbox (w : World) (answers : string -> mxtoolbox_response) : World :=
  {| malwaredomains := malwaredomains w;
     virustotal := virustotal w;
     cymon := cymon w;
     xforce := xforce w;
     talos := talos w;
     bluecoat := bluecoat w;
     fortiguard := fortiguard w;
     opendns := opendns w;
     trendmicro := trendmicro w;
     mxtoolbox := answers;
     websense := websense w;
     unicode_lower := unicode_lower w |}.

Definition with_categories (w : World) (from_talos : talos_response)
    (from_opendns : opendns_response) : World :=
  {| malwaredomains := malwaredomains w;
     virustotal := virustotal w;
     cymon := cymon w;
     xforce := xforce w;
     talos := fun _ => from_talos;
     bluecoat := bluecoat w;
     fortiguard := fortiguard w;
     opendns := fun _ => from_opendns;
     trendmicro := trendmicro w;
     mxtoolbox := mxtoolbox w;
     websense := websense w;
     unicode_lower := unicode_lower w |}.

Definition a_domain (n : N) (name status : string) : Domain :=
  {| ident := n; name := name; health_status := status |}.

(** Settings with an API key and no [sleep_time]. *)
Definition settings_without_delay : gmap string setting :=
  {[ "virustotal_api_key" := SStr "0f3c9a" ]}.

(** The object [__init__] builds from them over [queryset]. *)
Definition review_of (queryset : list Domain) : DomainReview :=
  {| domain_queryset := queryset;
     request_delay := SInt 20;
     virustotal_api_key := SStr "0f3c9a" |}.

(** The same review over another queryset. *)
Definition with_queryset (self : DomainReview) (queryset : list Domain)
  : DomainReview :=
  {| domain_queryset := queryset;
     request_delay := request_delay self;
     virustotal_api_key := virustotal_api_key self |}.

(** One state of the verdict and a later one: the flag has not gone back and
    the explanations have only been added to. *)
Definition grows (v v' : verdict) : Prop :=
  (burned v = true -> burned v' = true) /\
  burned_explanations v `prefix_of` burned_explanations v'.


(** The domains of a queryset that line 467 lets through. *)
Definition not_healthy (d : Domain) : bool :=
  negb (String.eqb (health_status d) "Healthy").

(** Three domains of the examples. *)
Definition example_org : Domain := a_domain 1 "example.org" "Burned".
Definition ample_com : Domain := a_domain 2 "ample.com" "Unknown".
Definition cleared_org : Domain := a_domain 3 "cleared.org" "Healthy".

(** The world of the scenario of the passive-DNS check: one resolution, and
    Cymon knows the address. *)
Definition dns_world : World :=
  with_cymon
    (with_virustotal quiet_world
       (fun _ => Some {| vt_categories := None;
                         detected_downloaded_samples := None;
                         detected_urls := None;
                         resolutions :=
                           Some [{| ip_address := "1.2.3.4";
                                    last_resolved :=
                                      Some "2020-01-01 00:00:00" |}] |}))
    (fun _ => CyStatus 200 false).

(** A CAPTCHA that downloads and that the OCR engine cannot read. *)
Definition unreadable_captcha : Captcha.world :=
  {| Captcha.image := Captcha.DownloadStatus 200 true;
     Captcha.opens := true;
     Captcha.image_to_string := Captcha.OcrFault;
     Captcha.removable := true |}.

(** ** Further notions used in the statements *)

(** [DomainReview.malwaredomains_url] (line 53). *)
Definition malwaredomains_url : string :=
  "http://mirror1.malwaredomains.com/files/justdomains".

(** The domains of a queryset whose status is ['Healthy']. *)
Definition all_healthy (queryset : list Domain) : Prop :=
  Forall (fun d => health_status d = "Healthy") queryset.

(** The first domain of a queryset that line 467 lets through, if any. *)
Definition first_not_healthy (queryset : list Domain) : list Domain :=
  take 1 (List.filter not_healthy queryset).

(** The four explanations, in the order of the rules. *)
Definition explanations_in_order : list string :=
  ["Flagged by malwaredomains.com";
   "Tied to a VirusTotal detected malware sample";
   "Tied to a VirusTotal detected URL";
   "Tagged with a bad category"].

(** The denylist as the bad-category list shows it. *)
Definition blacklisted_display : list string :=
  ["Phishing"; "Web ads/analytics"; "Suspicious"; "Shopping"; "Placeholders";
   "Pornography"; "Spam"; "Gambling"; "Scam/questionable/illegal";
   "Malicious sources/malnets"].

(** Settings whose API key is the empty string. *)
Definition settings_empty_key : gmap string setting :=
  {[ "virustotal_api_key" := SStr "" ]}.

(** A CAPTCHA that downloads and that the OCR engine reads. *)
Definition readable_captcha : Captcha.world :=
  {| Captcha.image := Captcha.DownloadStatus 200 true;
     Captcha.opens := true;
     Captcha.image_to_string := Captcha.OcrText "a[ b'c";
     Captcha.removable := true |}.

(** A domain that the sample feed lists. *)
Definition bad_org : Domain := a_domain 4 "bad.org" "Burned".

(** VirusTotal knows a sample and a URL of the domain, and Talos files it
    under spam. *)
Definition burning_world : World :=
  with_categories
    (with_virustotal quiet_world
       (fun _ => Some {| vt_categories := None;
                         detected_downloaded_samples := Some ["3f2a"];
                         detected_urls := Some ["http://bad.org/x"];
                         resolutions := None |}))
    (TalosOk (Some "Spam")) (OdPage None).

(** * Properties *)

(** ** Letter case *)

Section LetterCase.

Import PyStr.

Lemma lower_char_idem (a : ascii) : lower_char (lower_char a) = lower_char a.
Proof. destruct a as [[] [] [] [] [] [] [] []]; reflexivity. Qed.

Lemma lower_upper_char (a : ascii) : lower_char (upper_char a) = lower_char a.
Proof. destruct a as [[] [] [] [] [] [] [] []]; reflexivity. Qed.

Lemma lower_idem (s : string) : lower (lower s) = lower s.
Proof. induction s as [|a s IH]; simpl; [done|]. by rewrite lower_char_idem, IH. Qed.

Lemma lower_upper (s : string) : lower (upper s) = lower s.
Proof. induction s as [|a s IH]; simpl; [done|]. by rewrite lower_upper_char, IH. Qed.

Lemma lower_capitalize (s : string) : lower (capitalize s) = lower s.
Proof. destruct s as [|a s]; simpl; [done|]. by rewrite lower_upper_char, lower_idem. Qed.

(** Two strings with the same capitalized form differ in letter case only. *)
Lemma capitalize_eq_lower (s s' : string) :
  capitalize s = capitalize s' -> lower s = lower s'.
Proof.
  intros H. rewrite <- (lower_capitalize s), <- (lower_capitalize s').
  by rewrite H.
Qed.

End LetterCase.

(** ** The bad-category loop *)

Lemma bad_categories_loop_spec (domain_categories acc : list string) :
  bad_categories_loop domain_categories acc =
  acc ++ map PyStr.capitalize (List.filter is_blacklisted domain_categories).
Proof.
  revert acc. induction domain_categories as [|c l IH]; intros acc; simpl.
  - by rewrite app_nil_r.
  - destruct (is_blacklisted c); rewrite IH; [|done].
    by rewrite <- app_assoc.
Qed.

Lemma bad_categories_of_spec (domain_categories : list string) :
  bad_categories_of domain_categories =
  map PyStr.capitalize (List.filter is_blacklisted domain_categories).
Proof. unfold bad_categories_of. by rewrite bad_categories_loop_spec. Qed.

Lemma is_blacklisted_iff (c : string) :
  is_blacklisted c = true <-> PyStr.lower c ∈ blacklisted.
Proof. unfold is_blacklisted. by rewrite bool_decide_eq_true. Qed.

(** ** Sequencing *)

Lemma result_bind {A B} (m : M A) (k : A -> M B) :
  result (bind m k) =
  match result m with
  | Ok a => result (k a)
  | Raise e => Raise e
  end.
Proof. destruct m as [[a|e] t]; simpl; [destruct (k a)|]; done. Qed.

Lemma trace_bind {A B} (m : M A) (k : A -> M B) :
  trace (bind m k) =
  match result m with
  | Ok a => trace m ++ trace (k a)
  | Raise e => trace m
  end.
Proof. destruct m as [[a|e] t]; simpl; [destruct (k a)|]; done. Qed.

Lemma M_pair {A} (m : M A) : m = (result m, trace m).
Proof. by destruct m. Qed.

(** ** The passive-DNS loops *)

(** [check_cymon] answers what Cymon knows. *)
Lemma check_cymon_result (w : World) (ip : string) :
  result (check_cymon w ip) = Ok (cymon_knows w ip).
Proof.
  unfold cymon_knows, check_cymon. rewrite result_bind. simpl.
  destruct (cymon w ip) as [|code nf]; [done|].
  destruct (code =? 200)%Z; [destruct nf|]; done.
Qed.

Lemma check_cymon_trace (w : World) (ip : string) :
  trace (check_cymon w ip) = [Query Cymon ip].
Proof.
  unfold check_cymon. rewrite trace_bind. simpl.
  destruct (cymon w ip) as [|code nf]; [done|].
  destruct (code =? 200)%Z; [destruct nf|]; done.
Qed.

Lemma cymon_loop_result (w : World) (ips : list ip_entry)
    (burned_dns : bool) (bad_addresses : list string) :
  result (cymon_loop w ips burned_dns bad_addresses) =
  Ok (burned_dns || existsb (fun a => cymon_knows w (address a)) ips,
      bad_addresses ++
      map entry_text (List.filter (fun a => cymon_knows w (address a)) ips)).
Proof.
  revert burned_dns bad_addresses.
  induction ips as [|a ips IH]; intros bd ba; simpl.
  - by rewrite orb_false_r, app_nil_r.
  - rewrite result_bind, check_cymon_result.
    destruct (cymon_knows w (address a)); rewrite IH; simpl.
    + by rewrite orb_true_r, <- app_assoc.
    + done.
Qed.

Lemma cymon_loop_trace (w : World) (ips : list ip_entry)
    (burned_dns : bool) (bad_addresses : list string) :
  trace (cymon_loop w ips burned_dns bad_addresses) =
  map (fun a => Query Cymon (address a)) ips.
Proof.
  revert burned_dns bad_addresses.
  induction ips as [|a ips IH]; intros bd ba; simpl; [done|].
  rewrite trace_bind, check_cymon_result, check_cymon_trace.
  destruct (cymon_knows w (address a)); by rewrite IH.
Qed.

(** The first loop returns exactly when every resolution has a text under
    [last_resolved]. *)
Lemma ip_entries_Ok (rs : list resolution) (ips : list ip_entry) :
  ip_entries rs = Ok ips <->
  Forall (fun r => is_Some (last_resolved r)) rs /\ ips = map as_ip_entry rs.
Proof.
  revert ips. induction rs as [|r rs IH]; intros ips; simpl.
  - split; [by intros [= <-]|by intros [_ ->]].
  - unfold as_ip_entry at 1, seen.
    destruct (last_resolved r) as [ts|] eqn:Hts; simpl.
    + destruct (ip_entries rs) as [entries|e].
      * destruct (proj1 (IH entries) eq_refl) as [Hall ->]. split.
        -- intros [= <-]. split; [|done]. constructor; [|done].
           rewrite Hts. by eexists.
        -- by intros [_ ->].
      * split; [done|]. intros [Hall _]. apply Forall_cons in Hall as [_ Hall].
        by pose proof (proj2 (IH (map as_ip_entry rs)) (conj Hall eq_refl)).
    + split; [done|]. intros [Hall _].
      apply Forall_cons in Hall as [[ts Hr] _]. congruence.
Qed.

Lemma passive_dns_Ok (vt : vt_report) (ips : list ip_entry) :
  passive_dns vt = Ok ips <->
  Forall (fun r => is_Some (last_resolved r)) (default [] (resolutions vt)) /\
  ips = map as_ip_entry (default [] (resolutions vt)).
Proof.
  unfold passive_dns. destruct (resolutions vt) as [rs|]; simpl.
  - apply ip_entries_Ok.
  - split; [by intros [= <-]|by intros [_ ->]].
Qed.

Lemma existsb_as_ip_entry (w : World) (rs : list resolution) :
  existsb (fun a => cymon_knows w (address a)) (map as_ip_entry rs) =
  existsb (suspect w) rs.
Proof. induction rs as [|r rs IH]; simpl; [done|]. by rewrite IH. Qed.

Lemma flagged_as_ip_entry (w : World) (rs : list resolution) :
  map entry_text
    (List.filter (fun a => cymon_knows w (address a)) (map as_ip_entry rs)) =
  map dns_entry (List.filter (suspect w) rs).
Proof.
  induction rs as [|r rs IH]; [done|].
  cbn [map List.filter].
  change (cymon_knows w (address (as_ip_entry r))) with (suspect w r).
  destruct (suspect w r); cbn [map]; by rewrite IH.
Qed.

Lemma existsb_agree {A} (f g : A -> bool) (l : list A) :
  (forall a, f a = g a) -> existsb f l = existsb g l.
Proof. intros H. induction l as [|a l IH]; simpl; [done|]. by rewrite H, IH. Qed.

Lemma filter_agree {A} (f g : A -> bool) (l : list A) :
  (forall a, f a = g a) -> List.filter f l = List.filter g l.
Proof.
  intros H. induction l as [|a l IH]; simpl; [done|]. by rewrite H, IH.
Qed.

(** ** One evaluation, call by call *)

Lemma result_lift {A} (o : outcome A) : result (lift o) = o.
Proof. done. Qed.

Lemma trace_lift {A} (o : outcome A) : trace (lift o) = [].
Proof. done. Qed.

Lemma evaluate_domain_result (self : DomainReview) (w : World)
    (feed : option string) (d : Domain) (b : bool) :
  result (evaluate_domain self w feed d b) =
  match result (check_virustotal self w (name d)) with
  | Raise e => Raise e
  | Ok None => Raise TypeError
  | Ok (Some vt) =>
    match passive_dns vt with
    | Raise e => Raise e
    | Ok ips =>
    match result (check_ibm_xforce w (name d)) with
    | Raise e => Raise e
    | Ok xf =>
    match category_list vt with
    | None => Raise AttributeError
    | Some names =>
    match result (check_talos w (name d)) with
    | Raise e => Raise e
    | Ok ta =>
    match result (check_bluecoat w (name d)) with
    | Raise e => Raise e
    | Ok bc =>
    match result (check_fortiguard w (name d)) with
    | Raise e => Raise e
    | Ok fg =>
    match result (check_opendns w (name d)) with
    | Raise e => Raise e
    | Ok od =>
    match result (check_trendmicro w (name d)) with
    | Raise e => Raise e
    | Ok tm =>
    match result (check_mxtoolbox w (name d)) with
    | Raise e => Raise e
    | Ok mx =>
    match result (check_websense w d) with
    | Raise e => Raise e
    | Ok ws =>
      let all := aggregate names xf ta bc fg od tm ws in
      Ok {| ev_verdict := verdict_of feed (name d) vt (bad_categories_of all) b;
            ev_health_dns :=
              health_dns_of
                (existsb (fun a => cymon_knows w (address a)) ips)
                (map entry_text
                   (List.filter (fun a => cymon_knows w (address a)) ips));
            ev_domain_categories := all;
            ev_bad_categories := bad_categories_of all;
            ev_xforce_results := xf;
            ev_talos_results := ta;
            ev_bluecoat_results := bc;
            ev_fortiguard_results := fg;
            ev_opendns_results := od;
            ev_trendmicro_results := tm;
            ev_mxtoolbox_results := mx;
            ev_websense_results := ws |}
    end end end end end end end end end end
  end.
Proof.
  unfold evaluate_domain. rewrite result_bind.
  destruct (result (check_virustotal self w (name d))) as [[vt|]|e]; [|done..].
  rewrite result_bind, result_lift.
  destruct (passive_dns vt) as [ips|e]; [|done].
  rewrite result_bind, cymon_loop_result.
  rewrite result_bind.
  destruct (result (check_ibm_xforce w (name d))) as [xf|e]; [|done].
  unfold category_list.
  destruct (vt_categories vt) as [[names|m]|]; [|done|];
    repeat (rewrite result_bind;
            match goal with
            | |- context [match result ?c with _ => _ end] =>
                destruct (result c); [|done]
            end);
    reflexivity.
Qed.

(** What a completed evaluation is made of. *)
Lemma evaluate_domain_fields (self : DomainReview) (w : World)
    (feed : option string) (d : Domain) (b : bool) (ev : evaluation) :
  result (evaluate_domain self w feed d b) = Ok ev ->
  exists vt names,
    result (check_virustotal self w (name d)) = Ok (Some vt) /\
    Forall (fun r => is_Some (last_resolved r)) (default [] (resolutions vt)) /\
    category_list vt = Some names /\
    result (check_ibm_xforce w (name d)) = Ok (ev_xforce_results ev) /\
    result (check_talos w (name d)) = Ok (ev_talos_results ev) /\
    result (check_bluecoat w (name d)) = Ok (ev_bluecoat_results ev) /\
    result (check_fortiguard w (name d)) = Ok (ev_fortiguard_results ev) /\
    result (check_opendns w (name d)) = Ok (ev_opendns_results ev) /\
    result (check_trendmicro w (name d)) = Ok (ev_trendmicro_results ev) /\
    result (check_mxtoolbox w (name d)) = Ok (ev_mxtoolbox_results ev) /\
    result (check_websense w d) = Ok (ev_websense_results ev) /\
    ev_domain_categories ev =
      aggregate names (ev_xforce_results ev)
        (ev_talos_results ev) (ev_bluecoat_results ev)
        (ev_fortiguard_results ev) (ev_opendns_results ev)
        (ev_trendmicro_results ev) (ev_websense_results ev) /\
    ev_bad_categories ev = bad_categories_of (ev_domain_categories ev) /\
    ev_verdict ev = verdict_of feed (name d) vt (ev_bad_categories ev) b /\
    ev_health_dns ev =
      health_dns_of (existsb (suspect w) (default [] (resolutions vt)))
        (map dns_entry (List.filter (suspect w) (default [] (resolutions vt)))).
Proof.
  intros H. rewrite evaluate_domain_result in H.
  destruct (result (check_virustotal self w (name d))) as [[vt|]|e]; [|done..].
  destruct (passive_dns vt) as [ips|e] eqn:Hips; [|done].
  apply passive_dns_Ok in Hips as [Hall ->].
  rewrite existsb_as_ip_entry, flagged_as_ip_entry in H.
  destruct (result (check_ibm_xforce w (name d))) as [xf|e]; [|done].
  destruct (category_list vt) as [names|] eqn:Hnames; [|done].
  exists vt, names. split; [done|]. split; [done|]. split; [done|].
  cbv zeta in H.
  repeat match type of H with
         | match result ?c with _ => _ end = _ => destruct (result c); [|done]
         end.
  by injection H as <-.
Qed.

Lemma evaluate_domain_verdict (self : DomainReview) (w : World)
    (feed : option string) (d : Domain) (b : bool) (ev : evaluation) :
  result (evaluate_domain self w feed d b) = Ok ev ->
  exists vt,
    result (check_virustotal self w (name d)) = Ok (Some vt) /\
    ev_verdict ev = verdict_of feed (name d) vt (ev_bad_categories ev) b.
Proof.
  intros H. apply evaluate_domain_fields in H as (vt & names & Hvt & H).
  exists vt. split; [done|]. apply H.
Qed.

(** And the other way round. *)
Lemma evaluate_domain_intro (self : DomainReview) (w : World)
    (feed : option string) (d : Domain) (b : bool) (vt : vt_report)
    (names xf ta : list string) (bc : string) (fg od tm mx : list string)
    (ws : PyStr.seq) :
  result (check_virustotal self w (name d)) = Ok (Some vt) ->
  Forall (fun r => is_Some (last_resolved r)) (default [] (resolutions vt)) ->
  category_list vt = Some names ->
  result (check_ibm_xforce w (name d)) = Ok xf ->
  result (check_talos w (name d)) = Ok ta ->
  result (check_bluecoat w (name d)) = Ok bc ->
  result (check_fortiguard w (name d)) = Ok fg ->
  result (check_opendns w (name d)) = Ok od ->
  result (check_trendmicro w (name d)) = Ok tm ->
  result (check_mxtoolbox w (name d)) = Ok mx ->
  result (check_websense w d) = Ok ws ->
  exists ev,
    result (evaluate_domain self w feed d b) = Ok ev /\
    ev_xforce_results ev = xf /\ ev_talos_results ev = ta /\
    ev_bluecoat_results ev = bc /\ ev_fortiguard_results ev = fg /\
    ev_opendns_results ev = od /\ ev_trendmicro_results ev = tm /\
    ev_mxtoolbox_results ev = mx /\ ev_websense_results ev = ws.
Proof.
  intros Hvt Hall Hnames Hxf Hta Hbc Hfg Hod Htm Hmx Hws.
  rewrite evaluate_domain_result, Hvt.
  assert (passive_dns vt = Ok (map as_ip_entry (default [] (resolutions vt))))
    as -> by (apply passive_dns_Ok; by split).
  rewrite Hxf, Hnames, Hta, Hbc, Hfg, Hod, Htm, Hmx, Hws. cbv zeta.
  eexists. split; [reflexivity|]. done.
Qed.

(** Two completed evaluations of a domain that had the same answer from
    VirusTotal and the same lists from the category sources agree on the
    categories and on the verdict. *)
Lemma evaluations_agree (self : DomainReview) (w w' : World)
    (feed : option string) (d : Domain) (b : bool) (ev ev' : evaluation) :
  result (evaluate_domain self w feed d b) = Ok ev ->
  result (evaluate_domain self w' feed d b) = Ok ev' ->
  result (check_virustotal self w' (name d)) =
    result (check_virustotal self w (name d)) ->
  ev_xforce_results ev' = ev_xforce_results ev ->
  ev_talos_results ev' = ev_talos_results ev ->
  ev_bluecoat_results ev' = ev_bluecoat_results ev ->
  ev_fortiguard_results ev' = ev_fortiguard_results ev ->
  ev_opendns_results ev' = ev_opendns_results ev ->
  ev_trendmicro_results ev' = ev_trendmicro_results ev ->
  ev_websense_results ev' = ev_websense_results ev ->
  ev_domain_categories ev' = ev_domain_categories ev /\
  ev_bad_categories ev' = ev_bad_categories ev /\
  ev_verdict ev' = ev_verdict ev.
Proof.
  intros H H' Hvt Hxf Hta Hbc Hfg Hod Htm Hws.
  apply evaluate_domain_fields in H
    as (vt & names & Hv & _ & Hn & _ & _ & _ & _ & _ & _ & _ & _
        & Hall & Hbad & Hver & _).
  apply evaluate_domain_fields in H'
    as (vt' & names' & Hv' & _ & Hn' & _ & _ & _ & _ & _ & _ & _ & _
        & Hall' & Hbad' & Hver' & _).
  rewrite Hvt, Hv in Hv'. injection Hv' as <-.
  assert (names' = names) as -> by congruence.
  assert (Hcat : ev_domain_categories ev' = ev_domain_categories ev).
  { rewrite Hall, Hall'. congruence. }
  assert (Hb : ev_bad_categories ev' = ev_bad_categories ev) by congruence.
  split; [done|]. split; [done|]. congruence.
Qed.

(** ** What the aggregate holds *)

Lemma aggregate_NoDup (vt xf ta : list string) (bc : string)
    (fg od tm : list string) (ws : PyStr.seq) :
  NoDup (aggregate vt xf ta bc fg od tm ws).
Proof. apply NoDup_remove_dups. Qed.

(** The members of the aggregate: what VirusTotal, X-Force, Talos,
    Fortiguard, OpenDNS and TrendMicro returned, and the items of what
    Bluecoat and Websense returned. *)
Lemma aggregate_spec (vt xf ta : list string) (bc : string)
    (fg od tm : list string) (ws : PyStr.seq) (c : string) :
  c ∈ aggregate vt xf ta bc fg od tm ws <->
  c ∈ vt \/ c ∈ xf \/ c ∈ ta \/ c ∈ PyStr.chars bc \/ c ∈ fg \/ c ∈ od \/
  c ∈ tm \/ c ∈ PyStr.items ws.
Proof.
  unfold aggregate, PyStr.list_set. cbv zeta.
  rewrite elem_of_remove_dups, !elem_of_app. tauto.
Qed.

(** ** Adapters that keep their faults *)

Lemma caught_adapters_return (w : World) (domain : string) :
  (exists l, result (check_talos w domain) = Ok l) /\
  (exists l, result (check_fortiguard w domain) = Ok l) /\
  (exists l, result (check_opendns w domain) = Ok l) /\
  (exists l, result (check_trendmicro w domain) = Ok l) /\
  (exists l, result (check_mxtoolbox w domain) = Ok l) /\
  (exists b, result (check_cymon w domain) = Ok b).
Proof.
  unfold check_talos, check_fortiguard, check_opendns, check_trendmicro,
    check_mxtoolbox, check_cymon.
  rewrite !result_bind. simpl. repeat split.
  - destruct (talos w domain) as [| |[]]; eauto.
  - destruct (fortiguard w domain) as [| |[]]; eauto.
  - destruct (opendns w domain) as [|[]]; eauto.
  - destruct (trendmicro w domain) as [| |[]]; eauto.
  - destruct (mxtoolbox w domain) as [|[] ? ?]; eauto.
  - destruct (cymon w domain) as [|code nf]; [eauto|].
    destruct (code =? 200)%Z; [destruct nf|]; eauto.
Qed.

(** ** When the verdict is burned *)

Lemma verdict_of_burned (feed : option string) (domain_name : string)
    (vt : vt_report) (bad : list string) (b : bool) :
  burned (verdict_of feed domain_name vt bad b) = true <->
  b = true \/
  (exists text, feed = Some text /\ PyStr.truthy text = true /\
                PyStr.contains text domain_name = true) \/
  detected (detected_downloaded_samples vt) = true \/
  detected (detected_urls vt) = true \/
  bad <> [].
Proof.
  unfold verdict_of, rule_categories, rule_urls, rule_samples, rule_malware.
  destruct bad as [|c bad]; simpl.
  2:{ split; [intros _|done]. do 4 right. done. }
  destruct (detected (detected_urls vt)); simpl.
  1:{ split; [intros _|done]. do 3 right. by left. }
  destruct (detected (detected_downloaded_samples vt)); simpl.
  1:{ split; [intros _|done]. do 2 right. by left. }
  destruct feed as [text|]; simpl.
  - destruct (PyStr.truthy text) eqn:Ht; simpl.
    + destruct (PyStr.contains text domain_name) eqn:Hc; simpl.
      * split; [intros _|done]. right. left. by exists text.
      * split; [by left|]. intros [?|[(t & [= <-] & _ & ?)|[?|[?|?]]]]; congruence.
    + split; [by left|]. intros [?|[(t & [= <-] & ? & _)|[?|[?|?]]]]; congruence.
  - split; [by left|]. intros [?|[(t & ? & _)|[?|[?|?]]]]; congruence.
Qed.

(** ** Lines of the feed *)

Lemma prefix_append (l rest : string) : String.prefix l (l +:+ rest) = true.
Proof.
  induction l as [|a l IH]; [by destruct rest|].
  change (String.prefix (String a l) (String a (l +:+ rest)) = true).
  simpl. destruct (ascii_dec a a); [done|congruence].
Qed.

Lemma contains_prefix (s sub : string) :
  String.prefix sub s = true -> PyStr.contains s sub = true.
Proof. intros H. destruct s; simpl in *; by rewrite H. Qed.

Lemma contains_tail (a : ascii) (s sub : string) :
  PyStr.contains s sub = true -> PyStr.contains (String a s) sub = true.
Proof. intros H. simpl. rewrite H. apply orb_true_r. Qed.

Lemma append_assoc_char (cur : string) (a : ascii) (s : string) :
  (cur +:+ String a EmptyString) +:+ s = cur +:+ String a s.
Proof.
  induction cur as [|c cur IH]; [done|].
  change (String c ((cur +:+ String a EmptyString) +:+ s) =
          String c (cur +:+ String a s)).
  by rewrite IH.
Qed.

Lemma lines_from_contains (s cur l : string) :
  l ∈ PyStr.lines_from cur s ->
  (exists rest, cur +:+ s = l +:+ rest) \/ PyStr.contains s l = true.
Proof.
  revert cur. induction s as [|a s IH]; intros cur; simpl.
  - intros ->%list_elem_of_singleton. left. by exists EmptyString.
  - destruct (Ascii.eqb a "010"%char).
    + intros [->|H]%elem_of_cons.
      * left. by exists (String a s).
      * right. apply contains_tail.
        apply IH in H as [[rest H]|H]; [|done].
        change (s = l +:+ rest) in H. rewrite H.
        apply contains_prefix, prefix_append.
    + intros H. apply IH in H as [[rest H]|H].
      * left. exists rest. by rewrite <- append_assoc_char.
      * right. by apply contains_tail.
Qed.

(** A line of the feed occurs in its text, so the malware rule flags it when
    the feed is not empty; the converse fails (see C4 below). *)
Lemma feed_line_flagged (text domain_name : string) (v : verdict) :
  domain_name ∈ PyStr.lines text -> text <> EmptyString ->
  rule_malware (Some text) domain_name v =
  flag "Flagged by malwaredomains.com" v.
Proof.
  intros Hl Ht. unfold rule_malware.
  destruct text as [|a text]; [done|]. cbn [PyStr.truthy].
  apply lines_from_contains in Hl as [[rest H]|H].
  - change (String a text = domain_name +:+ rest) in H.
    rewrite H, contains_prefix; [done|apply prefix_append].
  - by rewrite H.
Qed.

(** ** The CAPTCHA helper *)

(** Every fault of the download, of the file or of the OCR engine gives
    [False]. *)
Lemma solve_captcha_fault (w : Captcha.world) (files : gset string) :
  Captcha.image w = Captcha.DownloadFault \/
  (exists code copied, Captcha.image w = Captcha.DownloadStatus code copied /\
                       (code <> 200%Z \/ Captcha.opens w = false \/
                        copied = false)) \/
  Captcha.image_to_string w = Captcha.OcrFault ->
  fst (Captcha.solve_captcha w files) = None.
Proof.
  unfold Captcha.solve_captcha.
  intros [->|[(code & copied & -> & H)|Hocr]]; [done| |].
  - destruct (Z.eqb_spec code 200) as [->|_]; [|done].
    destruct (Captcha.opens w); [|done].
    destruct H as [?|[?| ->]]; done.
  - destruct (Captcha.image w) as [|code copied]; [done|].
    destruct (code =? 200)%Z; [|done].
    destruct (Captcha.opens w); [|done].
    destruct copied; [|done]. by rewrite Hocr.
Qed.

(** ** The verdict only grows *)

Lemma grows_refl (v : verdict) : grows v v.
Proof. by split. Qed.

Lemma grows_trans (v1 v2 v3 : verdict) : grows v1 v2 -> grows v2 v3 -> grows v1 v3.
Proof.
  intros [Hb12 He12] [Hb23 He23]. split; [auto|].
  by etrans.
Qed.

Lemma flag_grows (why : string) (v : verdict) : grows v (flag why v).
Proof. split; [done|]. simpl. by apply prefix_app_r. Qed.

Lemma rule_malware_grows (feed : option string) (n : string) (v : verdict) :
  grows v (rule_malware feed n v).
Proof.
  unfold rule_malware. destruct feed as [f|]; [|apply grows_refl].
  destruct (PyStr.truthy f); [|apply grows_refl].
  destruct (PyStr.contains f n); [apply flag_grows|apply grows_refl].
Qed.

Lemma rule_samples_grows (vt : vt_report) (v : verdict) : grows v (rule_samples vt v).
Proof.
  unfold rule_samples.
  destruct (detected _); [apply flag_grows|apply grows_refl].
Qed.

Lemma rule_urls_grows (vt : vt_report) (v : verdict) : grows v (rule_urls vt v).
Proof.
  unfold rule_urls.
  destruct (detected _); [apply flag_grows|apply grows_refl].
Qed.

Lemma rule_categories_grows (bad : list string) (v : verdict) :
  grows v (rule_categories bad v).
Proof. destruct bad; [apply grows_refl|apply flag_grows]. Qed.

(** In a list whose neighbours grow, every later state grows from every
    earlier one. *)
Lemma grows_along (l : list verdict) :
  (forall i v v', l !! i = Some v -> l !! S i = Some v' -> grows v v') ->
  forall i j vi vj, i <= j -> l !! i = Some vi -> l !! j = Some vj -> grows vi vj.
Proof.
  intros Hstep i j vi vj Hle. revert vj.
  induction Hle as [|j Hle IH]; intros vj Hi Hj.
  - assert (vi = vj) as -> by congruence. apply grows_refl.
  - destruct (l !! j) as [v|] eqn:Hv.
    + eapply grows_trans; [by apply IH|]. by eapply Hstep.
    + apply lookup_ge_None in Hv. apply lookup_lt_Some in Hj. lia.
Qed.

(** C3. In the evaluation of a domain the flag [burned] and the list of
    explanations pass through five states: the initial one and the ones left
    by the malware-feed rule, the detected-samples rule, the detected-URLs
    rule and the bad-category rule, the last being the verdict of the
    report. Between any earlier and any later of these states a flag that
    is true stays true and the explanations are kept as a prefix: entries
    are only appended. *)
Theorem C3_burned_monotonic (self : DomainReview) (w : World)
    (feed : option string) (d : Domain) (b : bool) (ev : evaluation) :
  result (evaluate_domain self w feed d b) = Ok ev ->
  exists vt,
    result (check_virustotal self w (name d)) = Ok (Some vt) /\
    let v0 := {| burned := b; burned_explanations := [] |} in
    let v1 := rule_malware feed (name d) v0 in
    let v2 := rule_samples vt v1 in
    let v3 := rule_urls vt v2 in
    let v4 := rule_categories (ev_bad_categories ev) v3 in
    ev_verdict ev = v4 /\
    rep_burned (assemble ev) = burned v4 /\
    rep_burned_explanation (assemble ev) =
      PyStr.join ", " (burned_explanations v4) /\
    forall i j vi vj, i <= j ->
      [v0; v1; v2; v3; v4] !! i = Some vi ->
      [v0; v1; v2; v3; v4] !! j = Some vj ->
      grows vi vj.
Proof.
  intros H. apply evaluate_domain_verdict in H as (vt & Hvt & Hv).
  exists vt. split; [done|]. cbv zeta. unfold assemble. simpl. rewrite Hv.
  split; [done|]. split; [done|]. split; [done|].
  apply grows_along. intros i v v' Hi Hi'.
  destruct i as [|[|[|[|i]]]]; simpl in Hi, Hi'; [..|by destruct i];
    injection Hi as <-; injection Hi' as <-.
  - apply rule_malware_grows.
  - apply rule_samples_grows.
  - apply rule_urls_grows.
  - apply rule_categories_grows.
Qed.

(** A listed domain with a detected sample, a detected URL and a bad
    category: the flag set by the feed rule is kept by the three later rules,
    and the feed's explanation stays in front of the three appended after
    it. *)
Lemma C3_burned_monotonic_witness :
  exists ev,
    result (evaluate_domain (review_of [bad_org]) burning_world
              (Some sample_feed) bad_org false) = Ok ev /\
    ev_verdict ev =
      {| burned := true;
         burned_explanations :=
           ["Flagged by malwaredomains.com";
            "Tied to a VirusTotal detected malware sample";
            "Tied to a VirusTotal detected URL";
            "Tagged with a bad category"] |} /\
    grows {| burned := true;
             burned_explanations := ["Flagged by malwaredomains.com"] |}
      (ev_verdict ev).
Proof.
  eexists. split; [vm_compute; reflexivity|].
  split; [vm_compute; reflexivity|].
  destruct (C3_burned_monotonic (review_of [bad_org]) burning_world
              (Some sample_feed) bad_org false _ eq_refl)
    as (vt & Hvt & Hv & _ & _ & Hgrow).
  injection Hvt as <-.
  apply (Hgrow 1 4); [lia|vm_compute; reflexivity|vm_compute; reflexivity].
Defined.

(** ** Passive DNS *)

Lemma evaluate_domain_trace (self : DomainReview) (w : World)
    (feed : option string) (d : Domain) (b : bool) (vt : vt_report) :
  result (check_virustotal self w (name d)) = Ok (Some vt) ->
  Forall (fun r => is_Some (last_resolved r)) (default [] (resolutions vt)) ->
  exists post,
    trace (evaluate_domain self w feed d b) =
    trace (check_virustotal self w (name d)) ++
    map (fun r => Query Cymon (ip_address r)) (default [] (resolutions vt)) ++
    post.
Proof.
  intros Hvt Hall. unfold evaluate_domain. rewrite trace_bind, Hvt.
  assert (passive_dns vt = Ok (map as_ip_entry (default [] (resolutions vt))))
    as Hips by (apply passive_dns_Ok; by split).
  rewrite trace_bind, result_lift, trace_lift, Hips.
  rewrite trace_bind, cymon_loop_result, cymon_loop_trace.
  rewrite map_map. simpl. eexists. reflexivity.
Qed.

(** Cymon is read by [check_cymon] alone. *)
Lemma evaluate_domain_with_cymon (self : DomainReview) (w : World)
    (answers : string -> cymon_response) (feed : option string) (d : Domain)
    (b : bool) (ev : evaluation) :
  result (evaluate_domain self w feed d b) = Ok ev ->
  exists ev',
    result (evaluate_domain self (with_cymon w answers) feed d b) = Ok ev' /\
    ev_verdict ev' = ev_verdict ev /\
    ev_domain_categories ev' = ev_domain_categories ev /\
    ev_bad_categories ev' = ev_bad_categories ev.
Proof.
  intros H. pose proof H as H0.
  apply evaluate_domain_fields in H
    as (vt & names & Hvt & Hall & Hn & Hxf & Hta & Hbc & Hfg & Hod & Htm
        & Hmx & Hws & _).
  destruct (evaluate_domain_intro self (with_cymon w answers) feed d b vt names
              _ _ _ _ _ _ _ _ Hvt Hall Hn Hxf Hta Hbc Hfg Hod Htm Hmx Hws)
    as (ev' & Hev' & Exf & Eta & Ebc & Efg & Eod & Etm & _ & Ews).
  exists ev'. split; [done|].
  destruct (evaluations_agree self w (with_cymon w answers) feed d b ev ev'
              H0 Hev' eq_refl Exf Eta Ebc Efg Eod Etm Ews) as (? & ? & ?).
  done.
Qed.

Lemma suspect_iff (w : World) (r : resolution) :
  suspect w r = true <-> cymon w (ip_address r) = CyStatus 200 false.
Proof.
  unfold suspect, cymon_knows.
  destruct (cymon w (ip_address r)) as [|code nf]; [done|].
  destruct (Z.eqb_spec code 200) as [->|Hc]; destruct nf; simpl;
    split; try done; intros [= ?]; done.
Qed.

(** C9. Say that Cymon flags an address when it serves the page of the
    address with status 200 and the page does not read 'IP Not Found'. When
    the evaluation of a domain completes, every passive-DNS resolution that
    VirusTotal returned has a [last_resolved] text and its address has been
    looked up at Cymon; the DNS health of the report is ["Healthy"] when
    Cymon flags none of the addresses, and otherwise ["Flagged DNS (...)"]
    listing, for each flagged resolution in order, the address, a slash and
    the part of [last_resolved] before its first space; and whatever Cymon
    answers, the burned flag and its explanation are the same. *)
Theorem C9_dns_health (self : DomainReview) (w : World)
    (feed : option string) (d : Domain) (b : bool) (ev : evaluation) :
  result (evaluate_domain self w feed d b) = Ok ev ->
  exists vt,
    result (check_virustotal self w (name d)) = Ok (Some vt) /\
    let rs := default [] (resolutions vt) in
    let flagged r :=
      bool_decide (cymon w (ip_address r) = CyStatus 200 false) in
    (forall r, r ∈ rs -> last_resolved r = Some (seen r)) /\
    (forall r, r ∈ rs ->
       Query Cymon (ip_address r) ∈ trace (evaluate_domain self w feed d b)) /\
    rep_health_dns (assemble ev) =
      (if existsb flagged rs
       then "Flagged DNS (" +:+
            PyStr.join ", "
              (map (fun r => ip_address r +:+ "/" +:+
                             PyStr.before_space (seen r))
                 (List.filter flagged rs)) +:+ ")"
       else "Healthy") /\
    (forall answers, exists ev',
       result (evaluate_domain self (with_cymon w answers) feed d b) = Ok ev' /\
       rep_burned (assemble ev') = rep_burned (assemble ev) /\
       rep_burned_explanation (assemble ev') = rep_burned_explanation (assemble ev)).
Proof.
  intros H. pose proof H as H0.
  apply evaluate_domain_fields in H
    as (vt & names & Hvt & Hall & _ & _ & _ & _ & _ & _ & _ & _ & _ & _ & _
        & _ & Hdns).
  exists vt. split; [done|]. cbv zeta.
  assert (Hflag : forall r,
            bool_decide (cymon w (ip_address r) = CyStatus 200 false) =
            suspect w r).
  { intros r. apply eq_true_iff_eq.
    rewrite bool_decide_eq_true. symmetry. apply suspect_iff. }
  split; [|split; [|split]].
  - intros r Hr. rewrite Forall_forall in Hall.
    destruct (Hall r Hr) as [ts Hts]. unfold seen. by rewrite Hts.
  - intros r Hr.
    destruct (evaluate_domain_trace self w feed d b vt Hvt Hall) as [post ->].
    apply elem_of_app. right. apply elem_of_app. left.
    apply list_elem_of_fmap. by exists r.
  - unfold assemble. simpl. rewrite Hdns. unfold health_dns_of.
    by rewrite (existsb_agree _ _ _ Hflag), (filter_agree _ _ _ Hflag).
  - intros answers.
    destruct (evaluate_domain_with_cymon self w answers feed d b ev H0)
      as (ev' & Hev' & Hv & _).
    exists ev'. split; [done|]. unfold assemble. simpl. by rewrite Hv.
Qed.

(** The scenario of one resolution, ["1.2.3.4"] last resolved
    ["2020-01-01 00:00:00"], which Cymon flags. *)
Lemma C9_dns_health_witness :
  exists ev,
    result (evaluate_domain (review_of [example_org]) dns_world
              (Some sample_feed) example_org false) = Ok ev /\
    rep_health_dns (assemble ev) = "Flagged DNS (1.2.3.4/2020-01-01)" /\
    rep_burned (assemble ev) = false.
Proof.
  eexists. split; [vm_compute; reflexivity|].
  destruct (C9_dns_health (review_of [example_org]) dns_world
              (Some sample_feed) example_org false _ eq_refl)
    as (vt & Hvt & _ & _ & Hdns & _).
  split; [|reflexivity].
  injection Hvt as <-. exact Hdns.
Defined.

(** ** The health gate *)

Lemma bind_ret_l {A B} (a : A) (k : A -> M B) : bind (ret a) k = k a.
Proof. unfold bind, ret. by destruct (k a). Qed.

Lemma not_healthy_true (d : Domain) :
  not_healthy d = true <-> health_status d <> "Healthy".
Proof.
  unfold not_healthy. rewrite negb_true_iff.
  destruct (String.eqb_spec (health_status d) "Healthy"); split; congruence.
Qed.

Lemma review_domain_healthy (self : DomainReview) (w : World)
    (feed : option string) (lab : gmap N report) (d : Domain) :
  health_status d = "Healthy" -> review_domain self w feed lab d = ret lab.
Proof. intros H. unfold review_domain. by rewrite H. Qed.

Lemma review_domain_evaluated (self : DomainReview) (w : World)
    (feed : option string) (lab : gmap N report) (d : Domain) :
  health_status d <> "Healthy" ->
  review_domain self w feed lab d =
  (do ev <- evaluate_domain self w feed d false;
   run sleep (request_delay self);
   ret (<[ident d := assemble ev]> lab)).
Proof. intros H. unfold review_domain. by rewrite bool_decide_eq_true_2. Qed.

(** A turn that evaluates its domain does not come back: the evaluation
    raises, or line 553 does. *)
Lemma review_domain_evaluated_raises (self : DomainReview) (w : World)
    (feed : option string) (lab : gmap N report) (d : Domain) :
  health_status d <> "Healthy" ->
  exists e, result (review_domain self w feed lab d) = Raise e.
Proof.
  intros H. rewrite review_domain_evaluated by done. rewrite result_bind.
  destruct (result (evaluate_domain self w feed d false)) as [ev|e]; eauto.
Qed.

Lemma bind_ext {A B} (m : M A) (k k' : A -> M B) :
  (forall a, k a = k' a) -> bind m k = bind m k'.
Proof. intros H. destruct m as [[a|e] t]; simpl; [by rewrite H|done]. Qed.

Lemma review_loop_filter (self : DomainReview) (w : World)
    (feed : option string) (queryset : list Domain) (lab : gmap N report) :
  review_loop self w feed queryset lab =
  review_loop self w feed (List.filter not_healthy queryset) lab.
Proof.
  revert lab. induction queryset as [|d qs IH]; intros lab; simpl; [done|].
  destruct (not_healthy d) eqn:Hd; simpl.
  - apply bind_ext. intros lab'. apply IH.
  - rewrite review_domain_healthy, bind_ret_l; [apply IH|].
    unfold not_healthy in Hd. apply negb_false_iff in Hd.
    by apply String.eqb_eq.
Qed.

(** The loop reads the key and the delay of the object, not its queryset. *)
Lemma review_loop_with_queryset (self : DomainReview) (w : World)
    (feed : option string) (other queryset : list Domain) (lab : gmap N report) :
  review_loop (with_queryset self other) w feed queryset lab =
  review_loop self w feed queryset lab.
Proof.
  revert lab. induction queryset as [|d qs IH]; intros lab; simpl; [done|].
  apply bind_ext. intros lab'. apply IH.
Qed.

(** A loop that returns has met Healthy domains only and hands back the
    mapping it was given. *)
Lemma review_loop_Ok (self : DomainReview) (w : World)
    (feed : option string) (queryset : list Domain) (lab m : gmap N report) :
  result (review_loop self w feed queryset lab) = Ok m ->
  m = lab /\ Forall (fun d => health_status d = "Healthy") queryset.
Proof.
  revert lab. induction queryset as [|d qs IH]; intros lab; simpl.
  - intros [= <-]. by split.
  - rewrite result_bind.
    destruct (decide (health_status d = "Healthy")) as [Hd|Hd].
    + rewrite review_domain_healthy by done. simpl. intros H.
      apply IH in H as [-> Hqs]. split; [done|]. by constructor.
    + destruct (review_domain_evaluated_raises self w feed lab d Hd) as [e ->].
      done.
Qed.

(** C5. The queryset holds a Healthy domain and, after it, two domains that
    are not. The Healthy one is skipped: nothing is looked up under its
    name. Of the other two only the first is evaluated: its turn ends in the
    [NameError] of line 553, so nothing is ever looked up under the name of
    the second, and no mapping is returned. *)
Theorem C5_later_domains_not_evaluated :
  check_domain_status (review_of [cleared_org; example_org; ample_com])
    quiet_world =
  (Raise NameError,
   [Query MalwareDomains "http://mirror1.malwaredomains.com/files/justdomains";
    Query VirusTotal "example.org"; Query XForce "example.org";
    Query Talos "example.org"; Query Bluecoat "example.org";
    Sleep 2; Sleep 5; Query Fortiguard "example.org";
    Query OpenDNS "example.org"; Query TrendMicro "example.org";
    Query MXToolbox "example.org"; Query Websense "example.org"]) /\
  health_status cleared_org = "Healthy" /\
  health_status example_org <> "Healthy" /\
  health_status ample_com <> "Healthy" /\
  forall s,
    (Query s (name cleared_org) ∉
       trace (check_domain_status
                (review_of [cleared_org; example_org; ample_com]) quiet_world)) /\
    (Query s (name ample_com) ∉
       trace (check_domain_status
                (review_of [cleared_org; example_org; ample_com]) quiet_world)).
Proof.
  split; [vm_compute; reflexivity|]. split; [reflexivity|].
  split; [discriminate|]. split; [discriminate|].
  intros s. split; destruct s; apply (bool_decide_unpack _); vm_compute;
    exact I.
Qed.

(** The three spellings of the specification match the entry [phishing]. *)
Example phishing_spellings :
  is_blacklisted "Phishing" = true /\ is_blacklisted "PHISHING" = true /\
  is_blacklisted "phishing" = true /\ is_blacklisted "Fishing" = false.
Proof. repeat split; reflexivity. Qed.

(** Where the two lists go in the report (lines 542-543). *)
Lemma assemble_category_keys (ev : evaluation) :
  cat_all (rep_categories (assemble ev)) =
    PyStr.join ", " (ev_bad_categories ev) /\
  cat_bad (rep_categories (assemble ev)) =
    PyStr.join ", " (ev_domain_categories ev).
Proof. by split. Qed.

(** C7. Talos answers [Spam] and OpenDNS answers [SPAM]. Both spellings
    match the denylist entry [spam], as the specification says of matching. The
    aggregate, made unique as raw strings, holds each spelling once, and the
    bad-category list holds [Spam] twice. *)
Theorem C7_case_variants_listed_twice :
  is_blacklisted "Spam" = true /\ is_blacklisted "SPAM" = true /\
  exists ev,
    result (evaluate_domain (review_of [example_org])
              (with_categories quiet_world (TalosOk (Some "Spam"))
                 (OdPage (Some ["SPAM"])))
              (Some sample_feed) example_org false) = Ok ev /\
    NoDup (ev_domain_categories ev) /\
    ev_bad_categories ev = ["Spam"; "Spam"] /\
    cat_all (rep_categories (assemble ev)) = "Spam, Spam" /\
    ~ NoDup (ev_bad_categories ev).
Proof.
  split; [reflexivity|]. split; [reflexivity|].
  eexists. split; [vm_compute; reflexivity|]. simpl.
  split; [apply (bool_decide_unpack _); vm_compute; exact I|].
  split; [vm_compute; reflexivity|].
  split; [vm_compute; reflexivity|].
  intros H. apply (bool_decide_pack _) in H. vm_compute in H. exact H.
Qed.

(** ** Inputs on which the code leaves the documented behaviour *)

(** C1. VirusTotal cannot be reached for [example.org], a domain that is not
    Healthy, and every other source answers. [check_virustotal] returns
    [None], line 481 tests a key in it, and the pass ends in a [TypeError]
    after two requests: no other source is asked and no mapping is returned.
    With VirusTotal answering, the same evaluation completes. *)
Theorem C1_virustotal_failure_aborts :
  check_domain_status (review_of [example_org])
    (with_virustotal quiet_world (fun _ => None)) =
  (Raise TypeError,
   [Query MalwareDomains "http://mirror1.malwaredomains.com/files/justdomains";
    Query VirusTotal "example.org"]) /\
  exists ev,
    result (evaluate_domain (review_of [example_org]) quiet_world
              (Some sample_feed) example_org false) = Ok ev.
Proof. split; [vm_compute; reflexivity|]. eexists. vm_compute. reflexivity. Qed.

(** C2. The request to X-Force raises: the handler of [check_ibm_xforce]
    raises a [NameError] of its own, which ends the pass. The browser session
    of [check_bluecoat] fails: the fault leaves the method as it is. *)
Theorem C2_adapter_faults_escape :
  check_ibm_xforce (with_xforce quiet_world (fun _ => XfFault)) "example.org" =
    (Raise NameError, [Query XForce "example.org"]) /\
  result (check_domain_status (review_of [example_org])
            (with_xforce quiet_world (fun _ => XfFault))) = Raise NameError /\
  check_bluecoat (with_bluecoat quiet_world (fun _ => BcFault)) "example.org" =
    (Raise Fault, [Query Bluecoat "example.org"]) /\
  result (check_domain_status (review_of [example_org])
            (with_bluecoat quiet_world (fun _ => BcFault))) = Raise Fault.
Proof. repeat split; vm_compute; reflexivity. Qed.

(** C4. The feed lists [example.com] and [bad.org]. The domain [ample.com]
    is no line of it, and the evaluation flags it as a malware domain:
    [ample.com] occurs inside the line [example.com]. *)
Theorem C4_feed_substring_flagged :
  result (download_malware_domains quiet_world) = Ok (Some sample_feed) /\
  PyStr.lines sample_feed = ["example.com"; "bad.org"; ""] /\
  (name ample_com ∉ PyStr.lines sample_feed) /\
  exists ev,
    result (evaluate_domain (review_of [ample_com]) quiet_world
              (Some sample_feed) ample_com false) = Ok ev /\
    ev_verdict ev =
      {| burned := true;
         burned_explanations := ["Flagged by malwaredomains.com"] |}.
Proof.
  split; [vm_compute; reflexivity|]. split; [vm_compute; reflexivity|].
  split; [apply (bool_decide_unpack _); vm_compute; exact I|].
  eexists. split; vm_compute; reflexivity.
Qed.

(** C6. MXToolbox reports a PhishTank issue for [example.org]. The
    evaluation completes, the MXToolbox result holds the issue, and the
    aggregated categories do not. Bluecoat answers [News], and the aggregate
    holds the letter [N], a category no source returned. *)
Theorem C6_mxtoolbox_left_out :
  exists ev,
    result (evaluate_domain (review_of [example_org])
              (with_mxtoolbox quiet_world (fun _ => MxPage false false true))
              (Some sample_feed) example_org false) = Ok ev /\
    ev_mxtoolbox_results ev = ["PhishTank Issues Found"] /\
    ("PhishTank Issues Found" ∉ ev_domain_categories ev) /\
    ev_bluecoat_results ev = "News" /\
    ("N" ∈ ev_domain_categories ev) /\
    "News" ∉ ev_domain_categories ev.
Proof.
  eexists. split; [vm_compute; reflexivity|]. simpl.
  split; [reflexivity|].
  split; [apply (bool_decide_unpack _); vm_compute; exact I|].
  split; [reflexivity|].
  split; apply (bool_decide_unpack _); vm_compute; exact I.
Qed.

(** C8. The image downloads and the OCR engine raises. [solve_captcha]
    returns [False], and [captcha.jpg], absent before the call, is in the
    working directory after it. *)
Theorem C8_ocr_fault_leaves_image :
  fst (Captcha.solve_captcha unreadable_captcha ∅) = None /\
  (Captcha.jpeg ∉ (∅ : gset string)) /\
  Captcha.jpeg ∈ snd (Captcha.solve_captcha unreadable_captcha ∅).
Proof.
  split; [reflexivity|]. split; [set_solver|].
  unfold Captcha.solve_captcha. simpl. set_solver.
Qed.

(** Without a configured [sleep_time] the delay of the object is 20. *)
Lemma init_default_delay (config : gmap string setting)
    (queryset : list Domain) (self : DomainReview) :
  config !! "sleep_time" = None ->
  init (Some config) queryset = Some self ->
  request_delay self = SInt 20.
Proof.
  unfold init. intros ->.
  destruct (config !! "virustotal_api_key"); [|done].
  by intros [= <-].
Qed.

(** C10. Settings without [sleep_time] give the delay 20. The pass over
    [example.org], with every source answering, asks each source once and
    then evaluates the name [sleep] of line 553: it ends in a [NameError],
    the only delays that took place are the two settle delays of the Bluecoat
    browser, and no mapping is returned. *)
Theorem C10_pacing_call_raises :
  init (Some settings_without_delay) [example_org] =
    Some (review_of [example_org]) /\
  request_delay (review_of [example_org]) = SInt 20 /\
  check_domain_status (review_of [example_org]) quiet_world =
  (Raise NameError,
   [Query MalwareDomains "http://mirror1.malwaredomains.com/files/justdomains";
    Query VirusTotal "example.org"; Query XForce "example.org";
    Query Talos "example.org"; Query Bluecoat "example.org";
    Sleep 2; Sleep 5; Query Fortiguard "example.org";
    Query OpenDNS "example.org"; Query TrendMicro "example.org";
    Query MXToolbox "example.org"; Query Websense "example.org"]) /\
  Sleep 20 ∉ trace (check_domain_status (review_of [example_org]) quiet_world).
Proof.
  split; [vm_compute; reflexivity|]. split; [reflexivity|].
  split; [vm_compute; reflexivity|].
  apply (bool_decide_unpack _). vm_compute. exact I.
Qed.

(** * Further properties of the code *)

(** ** The pass as a whole *)

Lemma bind_raised {A B} (m : M A) (k k' : A -> M B) (e : exn) :
  result m = Raise e -> bind m k = bind m k'.
Proof. destruct m as [[a|e'] t]; simpl; [discriminate|done]. Qed.

Lemma download_malware_domains_result (w : World) :
  result (download_malware_domains w) =
  match malwaredomains w with
  | FeedFault => Raise Fault
  | FeedStatus code text => Ok (if (code =? 200)%Z then Some text else None)
  end.
Proof.
  unfold download_malware_domains. rewrite result_bind. simpl.
  destruct (malwaredomains w) as [|code text]; [done|].
  by destruct (code =? 200)%Z.
Qed.

Lemma download_malware_domains_trace (w : World) :
  trace (download_malware_domains w) = [Query MalwareDomains malwaredomains_url].
Proof.
  unfold download_malware_domains. rewrite trace_bind. simpl.
  destruct (malwaredomains w) as [|code text]; [done|].
  by destruct (code =? 200)%Z.
Qed.

Lemma review_loop_all_healthy (self : DomainReview) (w : World)
    (feed : option string) (queryset : list Domain) (lab : gmap N report) :
  all_healthy queryset -> review_loop self w feed queryset lab = ret lab.
Proof.
  induction 1 as [|d qs Hd Hqs IH]; simpl; [done|].
  by rewrite review_domain_healthy, bind_ret_l.
Qed.

Lemma filter_not_healthy_head (queryset rest : list Domain) (d : Domain) :
  List.filter not_healthy queryset = d :: rest -> health_status d <> "Healthy".
Proof.
  intros H. apply not_healthy_true.
  assert (Hin : In d (List.filter not_healthy queryset)) by (rewrite H; by left).
  by apply filter_In in Hin as [_ Hd].
Qed.

(** X1. The pass hands back a mapping exactly when the feed request does not
    raise and every domain of the queryset is ['Healthy']; the mapping is
    then empty and the feed download was the only external call. *)
Theorem X1_pass_returns_iff (self : DomainReview) (w : World)
    (m : gmap N report) :
  (result (check_domain_status self w) = Ok m <->
   malwaredomains w <> FeedFault /\ all_healthy (domain_queryset self) /\ m = ∅) /\
  (result (check_domain_status self w) = Ok m ->
   trace (check_domain_status self w) =
   [Query MalwareDomains malwaredomains_url]).
Proof.
  unfold check_domain_status. rewrite result_bind, trace_bind.
  rewrite download_malware_domains_result, download_malware_domains_trace.
  destruct (malwaredomains w) as [|code text]; [by split; [split; [|intros []]|]|].
  split; [split|].
  - intros H. apply review_loop_Ok in H as [-> Hall]. done.
  - intros (_ & Hall & ->). by rewrite review_loop_all_healthy.
  - intros H. apply review_loop_Ok in H as [-> Hall].
    by rewrite review_loop_all_healthy.
Qed.

(** X2. The pass never gets past the first domain that is not ['Healthy']:
    result and external calls are those of the pass over that domain
    alone. *)
Theorem X2_pass_stops_at_first_evaluated (self : DomainReview) (w : World) :
  check_domain_status self w =
  check_domain_status
    (with_queryset self (first_not_healthy (domain_queryset self))) w.
Proof.
  unfold check_domain_status, first_not_healthy. apply bind_ext. intros feed.
  simpl. rewrite review_loop_with_queryset, review_loop_filter.
  destruct (List.filter not_healthy (domain_queryset self)) as [|d rest] eqn:Hf;
    [done|].
  apply filter_not_healthy_head in Hf.
  destruct (review_domain_evaluated_raises self w feed ∅ d Hf) as [e He].
  simpl. by apply bind_raised with e.
Qed.

Lemma evaluate_domain_falsy_key (self : DomainReview) (w : World)
    (feed : option string) (d : Domain) (b : bool) :
  setting_truthy (virustotal_api_key self) = false ->
  evaluate_domain self w feed d b = raise TypeError.
Proof.
  intros H. unfold evaluate_domain, check_virustotal. by rewrite H.
Qed.

(** X3. The constructor accepts a configured API key that is falsy (the
    empty string, zero). With such a key VirusTotal is never asked: when the
    feed request returns and some domain is not Healthy, the pass ends in a
    [TypeError] after the feed download alone. *)
Theorem X3_falsy_key_pass (config : gmap string setting)
    (queryset : list Domain) (key : setting) (w : World)
    (code : Z) (text : string) :
  config !! "virustotal_api_key" = Some key ->
  setting_truthy key = false ->
  malwaredomains w = FeedStatus code text ->
  ~ all_healthy queryset ->
  exists self,
    init (Some config) queryset = Some self /\
    check_domain_status self w =
    (Raise TypeError, [Query MalwareDomains malwaredomains_url]).
Proof.
  intros Hkey Hfalsy Hfeed Hq. unfold init. rewrite Hkey.
  eexists. split; [reflexivity|].
  match goal with |- check_domain_status ?s w = _ => set (self := s) end.
  rewrite (M_pair (check_domain_status self w)).
  unfold check_domain_status at 1 2. rewrite result_bind, trace_bind.
  rewrite download_malware_domains_result, download_malware_domains_trace, Hfeed.
  set (feed := if (code =? 200)%Z then Some text else None).
  change (domain_queryset self) with queryset.
  rewrite review_loop_filter.
  destruct (List.filter not_healthy queryset) as [|d rest] eqn:Hf.
  - exfalso. apply Hq. unfold all_healthy. apply Forall_forall. intros d Hd.
    destruct (decide (health_status d = "Healthy")) as [|Hn]; [done|].
    apply not_healthy_true in Hn.
    assert (Hin : In d (List.filter not_healthy queryset)).
    { apply filter_In. split; [by apply list_elem_of_In|done]. }
    rewrite Hf in Hin. destruct Hin.
  - apply filter_not_healthy_head in Hf. simpl.
    rewrite review_domain_evaluated by done.
    by rewrite evaluate_domain_falsy_key.
Qed.

Lemma X3_falsy_key_pass_witness :
  exists self,
    init (Some settings_empty_key) [cleared_org; example_org] = Some self /\
    check_domain_status self quiet_world =
    (Raise TypeError, [Query MalwareDomains malwaredomains_url]).
Proof.
  apply (X3_falsy_key_pass settings_empty_key [cleared_org; example_org]
           (SStr "") quiet_world 200 sample_feed);
    [reflexivity|reflexivity|reflexivity|].
  intros H. apply Forall_cons in H as [_ H]. apply Forall_cons in H as [H _].
  vm_compute in H. discriminate.
Defined.

(** X4. A feed request that raises ends the pass before any domain is looked
    at, whatever the queryset. A feed answered with a status other than 200,
    or with an empty text, lets the pass go on and flags no domain. *)
Theorem X4_feed_unavailable (self : DomainReview) (w : World) :
  (malwaredomains w = FeedFault ->
   check_domain_status self w =
   (Raise Fault, [Query MalwareDomains malwaredomains_url])) /\
  (forall code text, malwaredomains w = FeedStatus code text ->
     code <> 200%Z \/ text = EmptyString ->
     exists feed,
       result (download_malware_domains w) = Ok feed /\
       forall domain_name v, rule_malware feed domain_name v = v).
Proof.
  split.
  - intros H. rewrite (M_pair (check_domain_status self w)).
    unfold check_domain_status. rewrite result_bind, trace_bind.
    by rewrite download_malware_domains_result,
      download_malware_domains_trace, H.
  - intros code text H Hbad. rewrite download_malware_domains_result, H.
    eexists. split; [reflexivity|]. intros n v.
    destruct (Z.eqb_spec code 200) as [->|_]; [|done].
    destruct Hbad as [?| ->]; done.
Qed.

(** ** The malware-feed rule *)

Lemma prefix_inv (sub s : string) :
  String.prefix sub s = true -> exists post, s = sub +:+ post.
Proof.
  revert s. induction sub as [|a sub IH]; intros s H.
  - by exists s.
  - destruct s as [|c s]; simpl in H; [discriminate|].
    destruct (ascii_dec a c) as [->|]; [|discriminate].
    apply IH in H as [post ->]. by exists post.
Qed.

Lemma contains_occurs (s sub : string) :
  PyStr.contains s sub = true <-> exists pre post, s = pre +:+ sub +:+ post.
Proof.
  split.
  - induction s as [|c s IH]; intros H.
    + change (String.prefix sub EmptyString || false = true) in H.
      rewrite orb_false_r in H. apply prefix_inv in H as [post H].
      by exists EmptyString, post.
    + change (String.prefix sub (String c s) || PyStr.contains s sub = true) in H.
      apply orb_true_iff in H as [H|H].
      * apply prefix_inv in H as [post H]. by exists EmptyString, post.
      * apply IH in H as (pre & post & ->). by exists (String c pre), post.
  - intros (pre & post & ->). induction pre as [|c pre IH].
    + change (PyStr.contains (sub +:+ post) sub = true).
      apply contains_prefix, prefix_append.
    + change (PyStr.contains (String c (pre +:+ sub +:+ post)) sub = true).
      by apply contains_tail.
Qed.

(** X5. The malware-feed rule flags a name exactly when the downloaded text
    is not empty and the name occurs somewhere in it, at any position and
    across line boundaries (so any part of a listed line, and the empty
    name, are flagged); otherwise it leaves the verdict as it is. *)
Theorem X5_malware_rule_is_substring (feed : option string)
    (domain_name : string) (v : verdict) :
  let occurs :=
    exists text pre post,
      feed = Some text /\ text <> EmptyString /\
      text = pre +:+ domain_name +:+ post in
  (occurs -> rule_malware feed domain_name v =
             flag "Flagged by malwaredomains.com" v) /\
  (~ occurs -> rule_malware feed domain_name v = v).
Proof.
  cbv zeta. unfold rule_malware. split.
  - intros (text & pre & post & -> & Hne & Heq).
    destruct text as [|a text]; [done|]. cbn [PyStr.truthy].
    assert (PyStr.contains (String a text) domain_name = true) as ->; [|done].
    apply contains_occurs. eauto.
  - intros Hn. destruct feed as [text|]; [|done].
    destruct text as [|a text]; [done|]. cbn [PyStr.truthy].
    destruct (PyStr.contains (String a text) domain_name) eqn:Hc; [|done].
    exfalso. apply Hn. apply contains_occurs in Hc as (pre & post & Hc).
    exists (String a text), pre, post. by rewrite <- Hc.
Qed.

(** X6. A domain whose name is a line of a non-empty feed comes out of every
    evaluation that completes as burned, with the feed's explanation first,
    whatever the other sources answer. *)
Theorem X6_listed_domain_burned (self : DomainReview) (w : World)
    (text : string) (d : Domain) (b : bool) (ev : evaluation) :
  name d ∈ PyStr.lines text ->
  text <> EmptyString ->
  result (evaluate_domain self w (Some text) d b) = Ok ev ->
  rep_burned (assemble ev) = true /\
  ["Flagged by malwaredomains.com"] `prefix_of` burned_explanations (ev_verdict ev).
Proof.
  intros Hline Hne Hev.
  apply evaluate_domain_verdict in Hev as (vt & _ & Hv).
  unfold assemble. simpl. rewrite Hv. unfold verdict_of.
  rewrite (feed_line_flagged text (name d) _ Hline Hne).
  set (v1 := flag _ _).
  assert (Hg : grows v1
            (rule_categories (ev_bad_categories ev)
               (rule_urls vt (rule_samples vt v1)))).
  { eapply grows_trans; [apply rule_samples_grows|].
    eapply grows_trans; [apply rule_urls_grows|apply rule_categories_grows]. }
  destruct Hg as [Hb Hp]. split; [by apply Hb|exact Hp].
Qed.

Lemma X6_listed_domain_burned_witness :
  exists ev,
    result (evaluate_domain (review_of []) quiet_world (Some sample_feed)
              (a_domain 4 "bad.org" "Burned") false) = Ok ev /\
    rep_burned (assemble ev) = true.
Proof.
  eexists. split; [vm_compute; reflexivity|].
  refine (proj1 (X6_listed_domain_burned (review_of []) quiet_world sample_feed
                   (a_domain 4 "bad.org" "Burned") false _ _ _ eq_refl)).
  - apply (bool_decide_unpack _). vm_compute. exact I.
  - discriminate.
Defined.

(** ** When a domain is burned, and why *)

Lemma bad_categories_nonempty (domain_categories : list string) :
  bad_categories_of domain_categories <> [] <->
  exists c, c ∈ domain_categories /\ is_blacklisted c = true.
Proof.
  rewrite bad_categories_of_spec. split.
  - intros H. destruct (List.filter is_blacklisted domain_categories)
      as [|c l] eqn:Hf; [done|].
    assert (Hin : In c (List.filter is_blacklisted domain_categories))
      by (rewrite Hf; by left).
    apply filter_In in Hin as [Hin Hc]. exists c. by rewrite list_elem_of_In.
  - intros (c & Hin & Hc) H. apply fmap_nil_inv in H.
    assert (Hf : In c (List.filter is_blacklisted domain_categories)).
    { apply filter_In. by rewrite <- list_elem_of_In. }
    rewrite H in Hf. destruct Hf.
Qed.

(** X7. An evaluation that completes reports the domain burned exactly when
    the feed text is not empty and contains the name, or VirusTotal lists a
    detected sample, or VirusTotal lists a detected URL, or some aggregated
    category is on the denylist. The DNS health and the MXToolbox result
    have no part in it. *)
Theorem X7_burned_iff (self : DomainReview) (w : World)
    (feed : option string) (d : Domain) (ev : evaluation) :
  result (evaluate_domain self w feed d false) = Ok ev ->
  exists vt,
    result (check_virustotal self w (name d)) = Ok (Some vt) /\
    (rep_burned (assemble ev) = true <->
     (exists text, feed = Some text /\ text <> EmptyString /\
                   PyStr.contains text (name d) = true) \/
     (exists sample samples,
        detected_downloaded_samples vt = Some (sample :: samples)) \/
     (exists url urls, detected_urls vt = Some (url :: urls)) \/
     (exists c, c ∈ ev_domain_categories ev /\ is_blacklisted c = true)).
Proof.
  intros Hev. pose proof Hev as Hev0.
  apply evaluate_domain_verdict in Hev as (vt & Hvt & Hv).
  exists vt. split; [done|].
  assert (Hbad : ev_bad_categories ev = bad_categories_of (ev_domain_categories ev)).
  { apply evaluate_domain_fields in Hev0
      as (? & ? & _ & _ & _ & _ & _ & _ & _ & _ & _ & _ & _ & _ & Hbad & _).
    exact Hbad. }
  unfold assemble. simpl. rewrite Hv, verdict_of_burned.
  rewrite Hbad, bad_categories_nonempty.
  assert (Hd : forall field : option (list string),
             detected field = true <-> exists x xs, field = Some (x :: xs)).
  { intros [[|x xs]|]; simpl; (split; [intros H|intros (? & ? & H)]);
      try done; eauto. }
  rewrite !Hd. split.
  - intros [?|[(text & -> & Ht & Hc)|H]]; [done| |by right].
    left. exists text. split; [done|]. split; [|done]. by destruct text.
  - intros [(text & -> & Ht & Hc)|H]; [|by right; right].
    right. left. exists text. split; [done|]. split; [|done]. by destruct text.
Qed.

Lemma X7_burned_iff_witness :
  exists ev vt,
    result (evaluate_domain (review_of []) quiet_world (Some sample_feed)
              example_org false) = Ok ev /\
    result (check_virustotal (review_of []) quiet_world (name example_org)) =
      Ok (Some vt) /\
    rep_burned (assemble ev) = false.
Proof.
  eexists.
  destruct (X7_burned_iff (review_of []) quiet_world (Some sample_feed)
              example_org _ eq_refl) as (vt & Hvt & _).
  exists vt. split; [reflexivity|]. split; [exact Hvt|reflexivity].
Defined.

(** X8. From a flag that starts false, the explanations of a completed
    evaluation are a selection of the four fixed messages in the order
    feed, sample, URL, category, each at most once; and the domain is
    burned exactly when there is at least one explanation. *)
Theorem X8_explanations_shape (self : DomainReview) (w : World)
    (feed : option string) (d : Domain) (ev : evaluation) :
  result (evaluate_domain self w feed d false) = Ok ev ->
  burned_explanations (ev_verdict ev) `sublist_of` explanations_in_order /\
  (burned (ev_verdict ev) = true <-> burned_explanations (ev_verdict ev) <> []) /\
  (rep_burned_explanation (assemble ev) = EmptyString <->
   rep_burned (assemble ev) = false).
Proof.
  intros Hev. apply evaluate_domain_verdict in Hev as (vt & _ & Hv).
  unfold assemble. simpl. rewrite Hv.
  unfold verdict_of, rule_categories, rule_urls, rule_samples, rule_malware,
    explanations_in_order.
  destruct feed as [text|]; [destruct (PyStr.truthy text);
    [destruct (PyStr.contains text (name d))|]|];
    destruct (detected (detected_downloaded_samples vt));
    destruct (detected (detected_urls vt));
    destruct (ev_bad_categories ev) as [|c bad]; vm_compute;
    (split; [solve [repeat first [apply sublist_nil | apply sublist_skip
                                 | apply sublist_cons]]|]);
    (split; split; first [done | by intros _ | intros H; discriminate H
                         | intros H; exfalso; by apply H]).
Qed.

Lemma X8_explanations_shape_witness :
  exists ev,
    result (evaluate_domain (review_of []) quiet_world (Some sample_feed)
              ample_com false) = Ok ev /\
    burned_explanations (ev_verdict ev) `sublist_of` explanations_in_order.
Proof.
  eexists. split; [vm_compute; reflexivity|].
  exact (proj1 (X8_explanations_shape (review_of []) quiet_world
                  (Some sample_feed) ample_com _ eq_refl)).
Defined.

(** ** What the sources contribute *)

(** X9. The aggregated categories of a completed evaluation are free of
    duplicates, and a string is among them exactly when it is a category
    returned by VirusTotal, X-Force, Talos, Fortiguard, OpenDNS or
    TrendMicro, or one character of the Bluecoat text, or an item of the
    Websense result. What MXToolbox returned is not a way in. *)
Theorem X9_aggregate_members (self : DomainReview) (w : World)
    (feed : option string) (d : Domain) (b : bool) (ev : evaluation) :
  result (evaluate_domain self w feed d b) = Ok ev ->
  NoDup (ev_domain_categories ev) /\
  exists vt names,
    result (check_virustotal self w (name d)) = Ok (Some vt) /\
    category_list vt = Some names /\
    forall c, c ∈ ev_domain_categories ev <->
      c ∈ names \/
      c ∈ ev_xforce_results ev \/
      c ∈ ev_talos_results ev \/
      c ∈ PyStr.chars (ev_bluecoat_results ev) \/
      c ∈ ev_fortiguard_results ev \/
      c ∈ ev_opendns_results ev \/
      c ∈ ev_trendmicro_results ev \/
      c ∈ PyStr.items (ev_websense_results ev).
Proof.
  intros H. apply evaluate_domain_fields in H
    as (vt & names & Hvt & _ & Hn & _ & _ & _ & _ & _ & _ & _ & _ & Hall & _).
  rewrite Hall. split; [apply aggregate_NoDup|].
  exists vt, names. split; [done|]. split; [done|].
  intros c. apply aggregate_spec.
Qed.

Lemma X9_aggregate_members_witness :
  exists ev,
    result (evaluate_domain (review_of []) quiet_world (Some sample_feed)
              example_org false) = Ok ev /\
    NoDup (ev_domain_categories ev).
Proof.
  eexists. split; [vm_compute; reflexivity|].
  exact (proj1 (X9_aggregate_members (review_of []) quiet_world
                  (Some sample_feed) example_org false _ eq_refl)).
Defined.

(** X10. Talos, Fortiguard, OpenDNS, TrendMicro, MXToolbox and Cymon keep
    their faults to themselves: each of the six calls returns for every
    answer of its source. In a completed evaluation a fault of one of the
    first five (and TrendMicro's CAPTCHA page) has left that source with no
    category, and resolutions for which every Cymon request failed have
    left the DNS health at ["Healthy"]. An evaluation that completes also
    completes when Talos and OpenDNS fail instead, with the same answers
    from the other sources. *)
Theorem X10_tolerated_faults (self : DomainReview) (w : World)
    (feed : option string) (d : Domain) (b : bool) (ev : evaluation) :
  result (evaluate_domain self w feed d b) = Ok ev ->
  (forall w' domain,
     (exists l, result (check_talos w' domain) = Ok l) /\
     (exists l, result (check_fortiguard w' domain) = Ok l) /\
     (exists l, result (check_opendns w' domain) = Ok l) /\
     (exists l, result (check_trendmicro w' domain) = Ok l) /\
     (exists l, result (check_mxtoolbox w' domain) = Ok l) /\
     (exists answer, result (check_cymon w' domain) = Ok answer)) /\
  (talos w (name d) = TalosFault -> ev_talos_results ev = []) /\
  (fortiguard w (name d) = FgFault -> ev_fortiguard_results ev = []) /\
  (opendns w (name d) = OdFault -> ev_opendns_results ev = []) /\
  (trendmicro w (name d) = TmFault \/ trendmicro w (name d) = TmCaptcha ->
   ev_trendmicro_results ev = []) /\
  (mxtoolbox w (name d) = MxFault -> ev_mxtoolbox_results ev = []) /\
  (exists vt,
     result (check_virustotal self w (name d)) = Ok (Some vt) /\
     ((forall r, r ∈ default [] (resolutions vt) ->
                 cymon w (ip_address r) = CyFault) ->
      rep_health_dns (assemble ev) = "Healthy")) /\
  (exists ev',
     result (evaluate_domain self (with_categories w TalosFault OdFault)
               feed d b) = Ok ev' /\
     ev_talos_results ev' = [] /\ ev_opendns_results ev' = [] /\
     ev_xforce_results ev' = ev_xforce_results ev /\
     ev_bluecoat_results ev' = ev_bluecoat_results ev /\
     ev_fortiguard_results ev' = ev_fortiguard_results ev /\
     ev_trendmicro_results ev' = ev_trendmicro_results ev /\
     ev_mxtoolbox_results ev' = ev_mxtoolbox_results ev /\
     ev_websense_results ev' = ev_websense_results ev).
Proof.
  intros Hev. split; [intros w' domain; apply caught_adapters_return|].
  apply evaluate_domain_fields in Hev
    as (vt & names & Hvt & Hall & Hn & Hxf & Hta & Hbc & Hfg & Hod & Htm & Hmx
        & Hws & _ & _ & _ & Hdns).
  split_and!.
  - intros H. unfold check_talos in Hta. rewrite result_bind in Hta.
    simpl in Hta. rewrite H in Hta. by injection Hta.
  - intros H. unfold check_fortiguard in Hfg. rewrite result_bind in Hfg.
    simpl in Hfg. rewrite H in Hfg. by injection Hfg.
  - intros H. unfold check_opendns in Hod. rewrite result_bind in Hod.
    simpl in Hod. rewrite H in Hod. by injection Hod.
  - intros H. unfold check_trendmicro in Htm. rewrite result_bind in Htm.
    simpl in Htm. destruct H as [H|H]; rewrite H in Htm; by injection Htm.
  - intros H. unfold check_mxtoolbox in Hmx. rewrite result_bind in Hmx.
    simpl in Hmx. rewrite H in Hmx. by injection Hmx.
  - exists vt. split; [done|]. intros H. unfold assemble. simpl. rewrite Hdns.
    assert (existsb (suspect w) (default [] (resolutions vt)) = false) as ->;
      [|done].
    apply not_true_is_false. intros Hex.
    apply existsb_exists in Hex as (r & Hr & Hs).
    apply list_elem_of_In, H in Hr.
    unfold suspect, cymon_knows in Hs. by rewrite Hr in Hs.
  - destruct (evaluate_domain_intro self (with_categories w TalosFault OdFault)
                feed d b vt names (ev_xforce_results ev) [] (ev_bluecoat_results ev)
                (ev_fortiguard_results ev) [] (ev_trendmicro_results ev)
                (ev_mxtoolbox_results ev) (ev_websense_results ev)
                Hvt Hall Hn Hxf eq_refl Hbc Hfg eq_refl Htm Hmx Hws)
      as (ev' & Hev' & Exf & Eta & Ebc & Efg & Eod & Etm & Emx & Ews).
    exists ev'. done.
Qed.

Lemma X10_tolerated_faults_witness :
  exists ev',
    result (evaluate_domain (review_of [])
              (with_categories burning_world TalosFault OdFault)
              (Some sample_feed) bad_org false) = Ok ev' /\
    ev_talos_results ev' = [] /\ ev_opendns_results ev' = [].
Proof.
  destruct (X10_tolerated_faults (review_of []) burning_world
              (Some sample_feed) bad_org false _ eq_refl)
    as (_ & _ & _ & _ & _ & _ & _ & ev' & Hev' & Hta & Hod & _).
  exists ev'. split; [exact Hev'|]. split; [exact Hta|exact Hod].
Defined.

(** ** The requests of one evaluation *)

Lemma check_virustotal_Some_trace (self : DomainReview) (w : World)
    (domain : string) (vt : vt_report) :
  result (check_virustotal self w domain) = Ok (Some vt) ->
  trace (check_virustotal self w domain) =
  [Query VirusTotal (str_lower w domain)].
Proof.
  unfold check_virustotal.
  destruct (setting_truthy (virustotal_api_key self)); [done|discriminate].
Qed.

Lemma check_ibm_xforce_trace (w : World) (domain : string) :
  trace (check_ibm_xforce w domain) = [Query XForce domain].
Proof.
  unfold check_ibm_xforce. rewrite trace_bind. simpl.
  destruct (xforce w domain) as [|code [[|c cats]|]]; [done|..];
    destruct (response_ok code); try done; by destruct (code =? 404)%Z.
Qed.

Lemma check_talos_trace (w : World) (domain : string) :
  trace (check_talos w domain) = [Query Talos domain].
Proof.
  unfold check_talos. rewrite trace_bind. simpl.
  by destruct (talos w domain) as [| |[]].
Qed.

Lemma check_bluecoat_Ok_trace (w : World) (domain bc : string) :
  result (check_bluecoat w domain) = Ok bc ->
  trace (check_bluecoat w domain) = [Query Bluecoat domain; Sleep 2; Sleep 5].
Proof.
  unfold check_bluecoat. rewrite result_bind, trace_bind. simpl.
  by destruct (bluecoat w domain).
Qed.

Lemma check_fortiguard_trace (w : World) (domain : string) :
  trace (check_fortiguard w domain) = [Query Fortiguard domain].
Proof.
  unfold check_fortiguard. rewrite trace_bind. simpl.
  by destruct (fortiguard w domain) as [| |[]].
Qed.

Lemma check_opendns_trace (w : World) (domain : string) :
  trace (check_opendns w domain) = [Query OpenDNS domain].
Proof.
  unfold check_opendns. rewrite trace_bind. simpl.
  by destruct (opendns w domain) as [|[]].
Qed.

Lemma check_trendmicro_trace (w : World) (domain : string) :
  trace (check_trendmicro w domain) = [Query TrendMicro domain].
Proof.
  unfold check_trendmicro. rewrite trace_bind. simpl.
  by destruct (trendmicro w domain) as [| |[]].
Qed.

Lemma check_mxtoolbox_trace (w : World) (domain : string) :
  trace (check_mxtoolbox w domain) = [Query MXToolbox domain].
Proof.
  unfold check_mxtoolbox. rewrite trace_bind. simpl.
  by destruct (mxtoolbox w domain) as [|[] ? ?].
Qed.

Lemma check_websense_Ok_trace (w : World) (d : Domain) (ws : PyStr.seq) :
  result (check_websense w d) = Ok ws ->
  trace (check_websense w d) = [Query Websense (name d)].
Proof.
  unfold check_websense.
  destruct (ws_history_readable (websense w d)); [|discriminate].
  rewrite result_bind, trace_bind. simpl.
  destruct (ws_stored_report (websense w d)) as [[|page]|].
  - done.
  - by destruct (page !! 4%nat).
  - destruct (ws_quota (websense w d)) as [|n]; [discriminate|].
    by destruct (0 <? n)%Z.
Qed.

(** X11. A completed evaluation has made one lookup at VirusTotal under the
    lower-case name, one at Cymon for every passive-DNS resolution in the
    order VirusTotal gave them (repeated addresses are looked up again), and
    then one each at X-Force, Talos, Bluecoat, Fortiguard, OpenDNS,
    TrendMicro, MXToolbox and Websense, in this order; the only delays are
    the two of the Bluecoat browser. *)
Theorem X11_requests_of_an_evaluation (self : DomainReview) (w : World)
    (feed : option string) (d : Domain) (b : bool) (ev : evaluation) :
  result (evaluate_domain self w feed d b) = Ok ev ->
  exists vt,
    result (check_virustotal self w (name d)) = Ok (Some vt) /\
    trace (evaluate_domain self w feed d b) =
    Query VirusTotal (str_lower w (name d)) ::
    map (fun r => Query Cymon (ip_address r)) (default [] (resolutions vt)) ++
    [Query XForce (name d); Query Talos (name d); Query Bluecoat (name d);
     Sleep 2; Sleep 5; Query Fortiguard (name d); Query OpenDNS (name d);
     Query TrendMicro (name d); Query MXToolbox (name d);
     Query Websense (name d)].
Proof.
  intros H. apply evaluate_domain_fields in H
    as (vt & names & Hvt & Hall & Hn & Hxf & Hta & Hbc & Hfg & Hod & Htm
        & Hmx & Hws & _).
  exists vt. split; [done|]. unfold evaluate_domain.
  rewrite trace_bind, Hvt, (check_virustotal_Some_trace _ _ _ _ Hvt).
  assert (passive_dns vt = Ok (map as_ip_entry (default [] (resolutions vt))))
    as Hips by (apply passive_dns_Ok; by split).
  rewrite trace_bind, result_lift, trace_lift, Hips.
  rewrite trace_bind, cymon_loop_result, cymon_loop_trace, map_map.
  rewrite trace_bind, Hxf, check_ibm_xforce_trace.
  unfold category_list in Hn.
  destruct (vt_categories vt) as [[l|m]|]; [|done|];
    rewrite trace_bind, Hta, check_talos_trace;
    rewrite trace_bind, Hbc, (check_bluecoat_Ok_trace _ _ _ Hbc);
    rewrite trace_bind, Hfg, check_fortiguard_trace;
    rewrite trace_bind, Hod, check_opendns_trace;
    rewrite trace_bind, Htm, check_trendmicro_trace;
    rewrite trace_bind, Hmx, check_mxtoolbox_trace;
    rewrite trace_bind, Hws, (check_websense_Ok_trace _ _ _ Hws);
    simpl; reflexivity.
Qed.

Lemma X11_requests_of_an_evaluation_witness :
  exists ev,
    result (evaluate_domain (review_of []) dns_world (Some sample_feed)
              example_org false) = Ok ev /\
    Query Cymon "1.2.3.4" ∈
      trace (evaluate_domain (review_of []) dns_world (Some sample_feed)
               example_org false).
Proof.
  eexists. split; [vm_compute; reflexivity|].
  destruct (X11_requests_of_an_evaluation (review_of []) dns_world
              (Some sample_feed) example_org false _ eq_refl)
    as (vt & Hvt & ->).
  injection Hvt as <-. apply (bool_decide_unpack _). vm_compute. exact I.
Defined.

(** ** Single adapters *)

(** X12. [check_websense], handed the model instance, returns either the
    empty list or one string, cell 4 of a stored report page; never a
    non-empty list. With no stored report it returns only when the quota
    page shows no request left, and with requests left it raises a
    [TypeError] before anything is submitted. *)
Theorem X12_websense_outcomes (w : World) (d : Domain) :
  (forall ws, result (check_websense w d) = Ok ws ->
     ws = PyStr.AsList [] \/
     exists page cell,
       ws_stored_report (websense w d) = Some (WsReportPage page) /\
       page !! 4%nat = Some cell /\ ws = PyStr.AsStr cell) /\
  (ws_stored_report (websense w d) = None ->
   forall ws, result (check_websense w d) = Ok ws ->
     ws = PyStr.AsList [] /\
     exists n, ws_quota (websense w d) = WsQuota n /\ (n <= 0)%Z) /\
  (ws_history_readable (websense w d) = true ->
   ws_stored_report (websense w d) = None ->
   forall n, ws_quota (websense w d) = WsQuota n -> (0 < n)%Z ->
     check_websense w d = (Raise TypeError, [Query Websense (name d)])).
Proof.
  unfold check_websense. split; [|split].
  - intros ws.
    destruct (ws_history_readable (websense w d)); [|discriminate].
    rewrite result_bind. simpl.
    destruct (ws_stored_report (websense w d)) as [[|page]|].
    + intros [= <-]. by left.
    + destruct (page !! 4%nat) as [cell|] eqn:Hcell; intros [= <-].
      * right. by exists page, cell.
      * by left.
    + destruct (ws_quota (websense w d)) as [|n]; [discriminate|].
      destruct (0 <? n)%Z; [discriminate|]. intros [= <-]. by left.
  - intros -> ws.
    destruct (ws_history_readable (websense w d)); [|discriminate].
    rewrite result_bind. simpl.
    destruct (ws_quota (websense w d)) as [|n]; [discriminate|].
    destruct (Z.ltb_spec 0 n) as [Hn|Hn]; [discriminate|].
    intros [= <-]. split; [done|]. by exists n.
  - intros -> -> n -> Hn. apply Z.ltb_lt in Hn. by rewrite Hn.
Qed.

(** X13. [check_ibm_xforce] raises exactly when the request fails or the
    body of a success answer does not decode, and what it raises is the
    [NameError] of its own handler. When it returns, the list is empty
    exactly for an error status (400 to 599) other than 404; a 404 gives
    ['Unknown'] whatever the body; and a success answer that decodes always
    gives at least one entry, the category names or ['Uncategorized']. *)
Theorem X13_xforce_outcomes (w : World) (domain : string) :
  (forall e, result (check_ibm_xforce w domain) = Raise e <->
     e = NameError /\
     (xforce w domain = XfFault \/
      exists code, xforce w domain = XfResponse code None /\
                   response_ok code = true)) /\
  (forall l, result (check_ibm_xforce w domain) = Ok l ->
     (l = [] <->
      exists code cats, xforce w domain = XfResponse code cats /\
                        (400 <= code < 600)%Z /\ code <> 404%Z)) /\
  (forall cats, xforce w domain = XfResponse 404 cats ->
     result (check_ibm_xforce w domain) = Ok ["Unknown"]) /\
  (forall code cats l,
     xforce w domain = XfResponse code (Some cats) ->
     ~ (400 <= code < 600)%Z ->
     result (check_ibm_xforce w domain) = Ok l ->
     l <> [] /\ (cats <> [] -> l = cats) /\
     (cats = [] -> l = ["Uncategorized"])).
Proof.
  assert (Hok : forall code, response_ok code = true <-> ~ (400 <= code < 600)%Z).
  { intros code. unfold response_ok. rewrite negb_true_iff, andb_false_iff.
    rewrite Z.leb_gt, Z.ltb_ge. lia. }
  unfold check_ibm_xforce. rewrite result_bind. simpl.
  destruct (xforce w domain) as [|code cats].
  { split_and!; [|done..].
    intros e. split; [intros [= <-]; split; [done|by left]|by intros [-> _]]. }
  destruct (response_ok code) eqn:Hc.
  - pose proof (proj1 (Hok code) Hc) as Hrange.
    assert (Hne : code <> 404%Z) by lia.
    destruct cats as [[|c cats]|]; split_and!.
    + intros e. split; [done|].
      intros [_ [H|(code' & H & _)]]; discriminate H.
    + intros l [= <-]. split; [done|].
      intros (code' & cats' & H & Hr & _). injection H as <- <-. lia.
    + intros cats' H. injection H as -> _. done.
    + intros code' cats' l H _ Hl. injection Hl as <-. injection H as <- <-.
      done.
    + intros e. split; [done|].
      intros [_ [H|(code' & H & _)]]; discriminate H.
    + intros l [= <-]. split; [done|].
      intros (code' & cats' & H & Hr & _). injection H as <- <-. lia.
    + intros cats' H. injection H as -> _. done.
    + intros code' cats' l H _ Hl. injection Hl as <-. injection H as <- <-.
      done.
    + intros e. split.
      * intros [= <-]. split; [done|]. right. by exists code.
      * by intros [-> _].
    + done.
    + intros cats' H. injection H as ->. done.
    + done.
  - assert (Hrange : (400 <= code < 600)%Z).
    { destruct (decide (400 <= code < 600)%Z) as [|Hn]; [done|].
      apply Hok in Hn. congruence. }
    destruct (Z.eqb_spec code 404) as [->|Hne]; split_and!.
    + intros e. split; [done|].
      intros [_ [H|(code' & H & Hc')]]; [discriminate H|].
      injection H as <- _. congruence.
    + intros l [= <-]. split; [done|].
      intros (code' & cats' & H & _ & Hn). by injection H as <- _.
    + done.
    + intros code' cats' l H Hn. injection H as <- _. lia.
    + intros e. split; [done|].
      intros [_ [H|(code' & H & Hc')]]; [discriminate H|].
      injection H as <- _. congruence.
    + intros l [= <-]. split; [|done]. intros _. by exists code, cats.
    + intros cats' H. by injection H as ? _.
    + intros code' cats' l H Hn. injection H as <- _. lia.
Qed.

(** X14. [check_mxtoolbox] always returns, with at most two distinct
    entries; ['No issues found'] is never reported together with an issue,
    and a page that shows neither the all-clear nor an issue gives the empty
    list, as a failed request does. *)
Theorem X14_mxtoolbox_outcomes (w : World) (domain : string) :
  exists issues,
    check_mxtoolbox w domain = (Ok issues, [Query MXToolbox domain]) /\
    length issues <= 2 /\ NoDup issues /\
    ("No issues found" ∈ issues -> issues = ["No issues found"]) /\
    (mxtoolbox w domain = MxPage false false false -> issues = []).
Proof.
  unfold check_mxtoolbox.
  destruct (mxtoolbox w domain) as [|[] g p]; [| |destruct g, p];
    (eexists; split; [reflexivity|]); split_and!;
    first [ simpl; lia
          | apply (bool_decide_unpack _); vm_compute; exact I
          | intros H;
            first [ discriminate H | reflexivity
                  | apply (bool_decide_pack _) in H; vm_compute in H;
                    destruct H ] ].
Qed.

Lemma upper_char_ascii (c : ascii) :
  (nat_of_ascii c <? 128)%nat = true ->
  (nat_of_ascii (PyStr.upper_char c) <? 128)%nat = true.
Proof. destruct c as [[] [] [] [] [] [] [] []]; vm_compute; done. Qed.

Lemma lower_char_ascii (c : ascii) :
  (nat_of_ascii c <? 128)%nat = true ->
  (nat_of_ascii (PyStr.lower_char c) <? 128)%nat = true.
Proof. destruct c as [[] [] [] [] [] [] [] []]; vm_compute; done. Qed.

Lemma lower_ascii (s : string) :
  PyStr.is_ascii s = true -> PyStr.is_ascii (PyStr.lower s) = true.
Proof.
  induction s as [|c s IH]; [done|]. cbn [PyStr.is_ascii PyStr.lower].
  rewrite !andb_true_iff. intros [Hc Hs]. split; [|by apply IH].
  by apply lower_char_ascii.
Qed.

Lemma upper_ascii (s : string) :
  PyStr.is_ascii s = true -> PyStr.is_ascii (PyStr.upper s) = true.
Proof.
  induction s as [|c s IH]; [done|]. cbn [PyStr.is_ascii PyStr.upper].
  rewrite !andb_true_iff. intros [Hc Hs]. split; [|by apply IH].
  by apply upper_char_ascii.
Qed.

Lemma capitalize_ascii (s : string) :
  PyStr.is_ascii s = true -> PyStr.is_ascii (PyStr.capitalize s) = true.
Proof.
  destruct s as [|c s]; [done|]. cbn [PyStr.is_ascii PyStr.capitalize].
  rewrite !andb_true_iff. intros [Hc Hs]. split; [|by apply lower_ascii].
  by apply upper_char_ascii.
Qed.

(** X15. For a name of ASCII characters the VirusTotal lookup does not
    depend on letter case: the request is made for the lower-case name, so
    the upper-case and the capitalized spelling of the name get the answer
    and leave the request of the name itself. *)
Theorem X15_virustotal_ignores_case (self : DomainReview) (w : World)
    (domain : string) :
  PyStr.is_ascii domain = true ->
  check_virustotal self w (PyStr.upper domain) = check_virustotal self w domain /\
  check_virustotal self w (PyStr.capitalize domain) =
    check_virustotal self w domain /\
  check_virustotal self w (PyStr.lower domain) = check_virustotal self w domain /\
  forall e, e ∈ trace (check_virustotal self w domain) ->
            e = Query VirusTotal (PyStr.lower domain).
Proof.
  intros Hascii. unfold check_virustotal, str_lower.
  rewrite (upper_ascii _ Hascii), (capitalize_ascii _ Hascii),
    (lower_ascii _ Hascii), Hascii.
  rewrite lower_upper, lower_capitalize, lower_idem.
  repeat split.
  destruct (setting_truthy (virustotal_api_key self)); simpl.
  - by intros e ->%list_elem_of_singleton.
  - by intros e ?%elem_of_nil.
Qed.

Lemma X15_virustotal_ignores_case_witness :
  check_virustotal (review_of []) quiet_world "EXAMPLE.ORG" =
  check_virustotal (review_of []) quiet_world "Example.org".
Proof.
  exact (proj1 (X15_virustotal_ignores_case (review_of []) quiet_world
                  "Example.org" eq_refl)).
Defined.

(** ** The bad-category list *)

Lemma upper_lower_char (a : ascii) :
  PyStr.upper_char (PyStr.lower_char a) = PyStr.upper_char a.
Proof. destruct a as [[] [] [] [] [] [] [] []]; reflexivity. Qed.

Lemma capitalize_lower (s : string) :
  PyStr.capitalize (PyStr.lower s) = PyStr.capitalize s.
Proof.
  destruct s as [|a s]; simpl; [done|].
  by rewrite upper_lower_char, lower_idem.
Qed.

Lemma bad_category_display (domain_categories : list string) (b : string) :
  b ∈ bad_categories_of domain_categories -> b ∈ blacklisted_display.
Proof.
  rewrite bad_categories_of_spec, list_elem_of_fmap.
  intros (c & -> & Hc). apply list_elem_of_In, filter_In in Hc as [_ Hc].
  apply is_blacklisted_iff in Hc. rewrite <- capitalize_lower.
  change blacklisted_display with (map PyStr.capitalize blacklisted).
  apply list_elem_of_fmap. by exists (PyStr.lower c).
Qed.

Lemma bad_categories_nil (domain_categories : list string) :
  bad_categories_of domain_categories = [] <->
  forall c, c ∈ domain_categories -> is_blacklisted c = false.
Proof.
  split.
  - intros H c Hc. apply not_true_is_false. intros Hb.
    assert (Hne : bad_categories_of domain_categories <> []).
    { apply bad_categories_nonempty. eauto. }
    done.
  - intros H. destruct (bad_categories_of domain_categories) as [|b l] eqn:Hb;
      [done|].
    assert (Hne : bad_categories_of domain_categories <> [])
      by (by rewrite Hb).
    apply bad_categories_nonempty in Hne as (c & Hc & Hbl).
    rewrite (H c Hc) in Hbl. discriminate.
Qed.

(** X16. Whatever the sources return, every entry of the bad-category list
    is one of the ten denylist names in capitalized form, the list is no
    longer than the aggregate, and it is empty exactly when no aggregated
    category is on the denylist. *)
Theorem X16_bad_categories_display (domain_categories : list string) :
  (forall b, b ∈ bad_categories_of domain_categories ->
             b ∈ blacklisted_display) /\
  length (bad_categories_of domain_categories) <= length domain_categories /\
  (bad_categories_of domain_categories = [] <->
   forall c, c ∈ domain_categories -> is_blacklisted c = false).
Proof.
  split; [apply bad_category_display|]. split.
  - rewrite bad_categories_of_spec, length_map.
    induction domain_categories as [|c l IH]; simpl; [done|].
    destruct (is_blacklisted c); simpl; lia.
  - apply bad_categories_nil.
Qed.

Lemma join_nonempty (sep x : string) (l : list string) :
  x <> EmptyString -> PyStr.join sep (x :: l) <> EmptyString.
Proof.
  intros Hx. unfold PyStr.join. destruct x as [|a x]; [done|].
  destruct l as [|y l]; [done|].
  change (String a (x +:+ sep +:+ String.concat sep (y :: l)) <> EmptyString).
  done.
Qed.

(** X17. In the report of a completed evaluation the key ['all'] is the
    empty string exactly when no aggregated category is on the denylist,
    that is, exactly when the category rule did not fire; the aggregated
    categories themselves are under the key ['bad']. *)
Theorem X17_report_category_keys (self : DomainReview) (w : World)
    (feed : option string) (d : Domain) (b : bool) (ev : evaluation) :
  result (evaluate_domain self w feed d b) = Ok ev ->
  (cat_all (rep_categories (assemble ev)) = EmptyString <->
   forall c, c ∈ ev_domain_categories ev -> is_blacklisted c = false) /\
  (cat_all (rep_categories (assemble ev)) = EmptyString <->
   "Tagged with a bad category" ∉ burned_explanations (ev_verdict ev)) /\
  cat_bad (rep_categories (assemble ev)) =
    PyStr.join ", " (ev_domain_categories ev).
Proof.
  intros H. pose proof H as Hv.
  apply evaluate_domain_fields in H
    as (vt & names & _ & _ & _ & _ & _ & _ & _ & _ & _ & _ & _ & _ & Hbad & _).
  apply evaluate_domain_verdict in Hv as (vt' & _ & Hv).
  assert (Hjoin : cat_all (rep_categories (assemble ev)) = EmptyString <->
                  ev_bad_categories ev = []).
  { unfold assemble. simpl. split; [|by intros ->].
    destruct (ev_bad_categories ev) as [|x l] eqn:Hl; [done|]. intros Hj.
    exfalso. revert Hj. apply join_nonempty.
    assert (Hx : x ∈ blacklisted_display).
    { apply (bad_category_display (ev_domain_categories ev)).
      rewrite <- Hbad. by left. }
    intros ->. apply (bool_decide_pack _) in Hx. vm_compute in Hx. done. }
  split; [|split; [|done]].
  - rewrite Hjoin, Hbad.
    apply bad_categories_nil.
  - rewrite Hjoin, Hv. unfold verdict_of, rule_categories.
    destruct (ev_bad_categories ev) as [|x l]; split; try done.
    + intros _ Hin. revert Hin.
      unfold rule_urls, rule_samples, rule_malware.
      destruct feed as [text|]; [destruct (PyStr.truthy text);
        [destruct (PyStr.contains text (name d))|]|];
        destruct (detected (detected_downloaded_samples vt'));
        destruct (detected (detected_urls vt')); simpl;
        intros Hin; apply (bool_decide_pack _) in Hin; vm_compute in Hin; done.
    + intros Hn. exfalso. apply Hn. simpl. apply elem_of_app. right. by left.
Qed.

Lemma X17_report_category_keys_witness :
  exists ev,
    result (evaluate_domain (review_of [])
              (with_categories quiet_world (TalosOk (Some "Spam"))
                 (OdPage (Some ["SPAM"])))
              (Some sample_feed) example_org false) = Ok ev /\
    cat_all (rep_categories (assemble ev)) = "Spam, Spam" /\
    cat_all (rep_categories (assemble ev)) <> EmptyString.
Proof.
  eexists. split; [vm_compute; reflexivity|]. split; [vm_compute; reflexivity|].
  intros Hempty.
  pose proof (proj1 (proj1 (X17_report_category_keys (review_of [])
                  (with_categories quiet_world (TalosOk (Some "Spam"))
                     (OdPage (Some ["SPAM"])))
                  (Some sample_feed) example_org false _ eq_refl)) Hempty "Spam")
    as Hspam.
  assert (true = false); [|discriminate].
  apply Hspam. apply (bool_decide_unpack _). vm_compute. exact I.
Defined.

(** X18. Whatever MXToolbox answers, a completed evaluation stays completed
    with the same verdict, the same aggregated and bad categories and the
    same DNS health: the MXToolbox result reaches the report under its own
    key and nothing else. *)
Theorem X18_mxtoolbox_has_no_say (self : DomainReview) (w : World)
    (answers : string -> mxtoolbox_response) (feed : option string)
    (d : Domain) (b : bool) (ev : evaluation) :
  result (evaluate_domain self w feed d b) = Ok ev ->
  exists ev',
    result (evaluate_domain self (with_mxtoolbox w answers) feed d b) = Ok ev' /\
    rep_burned (assemble ev') = rep_burned (assemble ev) /\
    rep_burned_explanation (assemble ev') = rep_burned_explanation (assemble ev) /\
    rep_health_dns (assemble ev') = rep_health_dns (assemble ev) /\
    ev_domain_categories ev' = ev_domain_categories ev /\
    ev_bad_categories ev' = ev_bad_categories ev.
Proof.
  intros H. pose proof H as H0.
  apply evaluate_domain_fields in H
    as (vt & names & Hvt & Hall & Hn & Hxf & Hta & Hbc & Hfg & Hod & Htm
        & Hmx & Hws & _ & _ & _ & Hdns).
  destruct (caught_adapters_return (with_mxtoolbox w answers) (name d))
    as (_ & _ & _ & _ & [mx' Hmx'] & _).
  destruct (evaluate_domain_intro self (with_mxtoolbox w answers) feed d b
              vt names _ _ _ _ _ _ _ _
              Hvt Hall Hn Hxf Hta Hbc Hfg Hod Htm Hmx' Hws)
    as (ev' & Hev' & Exf & Eta & Ebc & Efg & Eod & Etm & _ & Ews).
  exists ev'. split; [done|].
  destruct (evaluations_agree self w (with_mxtoolbox w answers) feed d b ev ev'
              H0 Hev' eq_refl Exf Eta Ebc Efg Eod Etm Ews) as (Hc & Hb & Hv).
  apply evaluate_domain_fields in Hev'
    as (vt' & names' & Hvt' & _ & _ & _ & _ & _ & _ & _ & _ & _ & _ & _ & _
        & _ & Hdns').
  change (check_virustotal self (with_mxtoolbox w answers))
    with (check_virustotal self w) in Hvt'.
  change (suspect (with_mxtoolbox w answers)) with (suspect w) in Hdns'.
  assert (vt' = vt) as -> by congruence.
  unfold assemble. simpl. rewrite Hv, Hdns, Hdns'. done.
Qed.

Lemma X18_mxtoolbox_has_no_say_witness :
  exists ev',
    result (evaluate_domain (review_of [])
              (with_mxtoolbox quiet_world (fun _ => MxPage false true true))
              (Some sample_feed) example_org false) = Ok ev' /\
    rep_burned (assemble ev') = false.
Proof.
  destruct (X18_mxtoolbox_has_no_say (review_of []) quiet_world
              (fun _ => MxPage false true true) (Some sample_feed)
              example_org false _ eq_refl) as (ev' & Hev' & Hb & _).
  exists ev'. split; [exact Hev'|exact Hb].
Defined.

(** ** The constructor *)

(** X19. The constructor gives no object exactly when no API key is
    configured, be it that the settings have no [DOMAINCHECK_CONFIG] or that
    the key is missing from it, whatever else is configured. An object that
    is built keeps the queryset and the key as configured, and its delay is
    the configured [sleep_time], or 20 without one. *)
Theorem X19_init_outcomes (settings : option (gmap string setting))
    (queryset : list Domain) :
  (init settings queryset = None <->
   forall config, settings = Some config ->
                  config !! "virustotal_api_key" = None) /\
  (forall self, init settings queryset = Some self ->
     domain_queryset self = queryset /\
     exists config,
       settings = Some config /\
       config !! "virustotal_api_key" = Some (virustotal_api_key self) /\
       request_delay self = default (SInt 20) (config !! "sleep_time")).
Proof.
  unfold init. destruct settings as [config|].
  - destruct (config !! "virustotal_api_key") as [key|] eqn:Hkey; split.
    + split; [done|]. intros H. specialize (H config eq_refl). congruence.
    + intros self [= <-]. split; [done|]. by exists config.
    + split; [|done]. by intros _ config' [= <-].
    + done.
  - split; [|done]. split; [|done]. by intros _ config [=].
Qed.

(** ** The CAPTCHA helper, path by path *)

(** X20. [solve_captcha] returns [False] exactly when the download raises,
    answers with a status other than 200, the image file cannot be opened
    or written, or the OCR engine raises; otherwise it returns the OCR text
    with spaces and quotes removed and every opening bracket turned into
    the letter l. *)
Theorem X20_captcha_result (w : Captcha.world) (files : gset string) :
  (fst (Captcha.solve_captcha w files) = None <->
   Captcha.image w = Captcha.DownloadFault \/
   (exists code copied,
      Captcha.image w = Captcha.DownloadStatus code copied /\
      (code <> 200%Z \/ Captcha.opens w = false \/ copied = false)) \/
   Captcha.image_to_string w = Captcha.OcrFault) /\
  (forall text, fst (Captcha.solve_captcha w files) = Some text ->
     Captcha.image w = Captcha.DownloadStatus 200 true /\
     Captcha.opens w = true /\
     exists raw, Captcha.image_to_string w = Captcha.OcrText raw /\
                 text = Captcha.clean raw).
Proof.
  split.
  - split; [|apply solve_captcha_fault].
    unfold Captcha.solve_captcha.
    destruct (Captcha.image w) as [|code copied]; [by left|].
    destruct (Z.eqb_spec code 200) as [->|Hc].
    + destruct (Captcha.opens w) eqn:Ho.
      * destruct copied.
        -- destruct (Captcha.image_to_string w); [by right; right|done].
        -- intros _. right. left. exists 200%Z, false. split; [done|].
           by right; right.
      * intros _. right. left. exists 200%Z, copied. split; [done|].
        right. by left.
    + intros _. right. left. exists code, copied. by split; [|left].
  - unfold Captcha.solve_captcha. intros text.
    destruct (Captcha.image w) as [|code copied]; [done|].
    destruct (Z.eqb_spec code 200) as [->|Hc]; [|done].
    destruct (Captcha.opens w); [|done].
    destruct copied; [|done].
    destruct (Captcha.image_to_string w) as [|raw]; [done|].
    intros [= <-]. split; [done|]. split; [done|]. by exists raw.
Qed.

Lemma clean_chars (text : string) (c : ascii) :
  c ∈ list_ascii_of_string (Captcha.clean text) ->
  c <> " "%char /\ c <> "["%char /\ c <> "'"%char.
Proof.
  induction text as [|a text IH]; simpl; [by intros ?%elem_of_nil|].
  destruct (Ascii.eqb_spec a " ") as [->|Hsp]; [done|].
  destruct (Ascii.eqb_spec a "[") as [->|Hbr].
  - simpl. intros [->|H]%elem_of_cons; [done|by apply IH].
  - destruct (Ascii.eqb_spec a "'") as [->|Hq]; [done|].
    simpl. intros [->|H]%elem_of_cons; [done|by apply IH].
Qed.

(** X21. A text that [solve_captcha] returns contains no space, no opening
    bracket and no single quote, and is no longer than what the OCR engine
    read. *)
Theorem X21_captcha_text_clean (w : Captcha.world) (files : gset string)
    (text : string) :
  fst (Captcha.solve_captcha w files) = Some text ->
  (forall c, c ∈ list_ascii_of_string text ->
             c <> " "%char /\ c <> "["%char /\ c <> "'"%char) /\
  forall raw, Captcha.image_to_string w = Captcha.OcrText raw ->
              String.length text <= String.length raw.
Proof.
  unfold Captcha.solve_captcha.
  destruct (Captcha.image w) as [|code copied]; [done|].
  destruct (code =? 200)%Z; [|done].
  destruct (Captcha.opens w); [|done]. destruct copied; [|done].
  destruct (Captcha.image_to_string w) as [|raw]; [done|].
  intros [= <-]. split; [apply clean_chars|].
  intros raw' [= <-]. clear.
  induction raw as [|a raw IH]; simpl; [done|].
  destruct (Ascii.eqb a " "); [lia|].
  destruct (Ascii.eqb a "["); [simpl; lia|].
  destruct (Ascii.eqb a "'"); simpl; lia.
Qed.

Lemma X21_captcha_text_clean_witness :
  fst (Captcha.solve_captcha readable_captcha ∅) = Some "albc" /\
  forall c, c ∈ list_ascii_of_string "albc" ->
            c <> " "%char /\ c <> "["%char /\ c <> "'"%char.
Proof.
  split; [reflexivity|].
  exact (proj1 (X21_captcha_text_clean readable_captcha ∅ "albc" eq_refl)).
Defined.

(** X22. [solve_captcha] touches no file but [captcha.jpg]. When the
    download does not answer 200, or the image file cannot be opened, the
    directory is as before. Once the file has been opened after a 200
    answer, the image is in the directory afterwards unless a text is
    returned and the removal succeeds, and then it is gone even if it was
    there before the call. *)
Theorem X22_captcha_files (w : Captcha.world) (files : gset string) :
  (forall f, f <> Captcha.jpeg ->
     f ∈ snd (Captcha.solve_captcha w files) <-> f ∈ files) /\
  ((forall copied, Captcha.image w <> Captcha.DownloadStatus 200 copied) \/
   Captcha.opens w = false ->
   snd (Captcha.solve_captcha w files) = files) /\
  (forall copied, Captcha.image w = Captcha.DownloadStatus 200 copied ->
     Captcha.opens w = true ->
     (Captcha.jpeg ∉ snd (Captcha.solve_captcha w files) <->
      (exists text, fst (Captcha.solve_captcha w files) = Some text) /\
      Captcha.removable w = true)).
Proof.
  unfold Captcha.solve_captcha. split; [|split].
  - intros f Hf.
    destruct (Captcha.image w) as [|code copied]; [done|].
    destruct (code =? 200)%Z; [|done].
    destruct (Captcha.opens w); [|done].
    assert (Hadd : f ∈ ({[Captcha.jpeg]} ∪ files : gset string) <-> f ∈ files).
    { rewrite elem_of_union, elem_of_singleton. tauto. }
    destruct copied; [|done].
    destruct (Captcha.image_to_string w); [done|].
    destruct (Captcha.removable w); simpl; [|done].
    rewrite elem_of_difference, elem_of_singleton. tauto.
  - intros H. destruct (Captcha.image w) as [|code copied]; [done|].
    destruct (Z.eqb_spec code 200) as [->|_]; [|done].
    destruct H as [H| ->]; [by destruct (H copied)|done].
  - intros copied -> ->. simpl.
    assert (Hin : Captcha.jpeg ∈ ({[Captcha.jpeg]} ∪ files : gset string)).
    { apply elem_of_union. left. by apply elem_of_singleton. }
    destruct copied.
    + destruct (Captcha.image_to_string w) as [|raw]; simpl.
      * split; [done|]. by intros [[text ?] _].
      * destruct (Captcha.removable w); simpl.
        -- split; [eauto|]. intros _.
           rewrite elem_of_difference, elem_of_singleton. tauto.
        -- split; [done|]. by intros [_ ?].
    + simpl. split; [done|]. by intros [[text ?] _].
Qed.
